(** * AlumniConnect API: a shallow embedding of [main.py]

    The endpoints of [main.py] are modelled as functions over an explicit
    document store.  A MongoDB document is a finite map from field names to
    values, a collection is the list of its documents in storage order
    together with the next identifier the store will hand out, and the global
    handle [db] is an [option database] ([None] is Python's [db is None]). *)

From Stdlib Require Import ZArith NArith List Ascii String.
From stdpp Require Import base option list strings gmap fin_maps.

Open Scope string_scope.

(** ** Values and documents *)

Module Bson.

(** The values that the fields of a stored document hold.  An [ObjectId] is
    the 12-byte identifier the store assigns, kept as the number it encodes. *)
Inductive value :=
  | VStr (s : string)
  | VInt (n : Z)
  | VBool (b : bool)
  | VOid (oid : N).

#[global] Instance value_eq_dec : EqDecision value.
Proof. solve_decision. Defined.

Definition hex_digit (n : N) : ascii :=
  match n with
  | 0 => "0" | 1 => "1" | 2 => "2" | 3 => "3" | 4 => "4" | 5 => "5"
  | 6 => "6" | 7 => "7" | 8 => "8" | 9 => "9" | 10 => "a" | 11 => "b"
  | 12 => "c" | 13 => "d" | 14 => "e" | _ => "f"
  end%N%char.

(** [width] lowercase hexadecimal digits of [n], most significant first. *)
Fixpoint hex_fixed (width : nat) (n : N) (acc : string) : string :=
  match width with
  | O => acc
  | S w => hex_fixed w (n / 16)%N (String (hex_digit (n mod 16)%N) acc)
  end.

(** [str(ObjectId)]: 24 hexadecimal digits. *)
Definition oid_str (oid : N) : string := hex_fixed 24 oid "".

Fixpoint dec_digits (fuel : nat) (n : N) (acc : string) : string :=
  match fuel with
  | O => acc
  | S f =>
      let acc' := String (hex_digit (n mod 10)%N) acc in
      if (n / 10 =? 0)%N then acc' else dec_digits f (n / 10)%N acc'
  end.

Definition nat_str (n : N) : string := dec_digits (S (N.to_nat (N.log2 n))) n "".

(** Python's [str(v)]. *)
Definition str (v : value) : string :=
  match v with
  | VStr s => s
  | VInt n => if (n <? 0)%Z then "-" ++ nat_str (Z.to_N (- n)) else nat_str (Z.to_N n)
  | VBool true => "True"
  | VBool false => "False"
  | VOid oid => oid_str oid
  end.

End Bson.
Export Bson.

Abbreviation doc := (gmap string value).

(** ** Helpers *)

(** [to_public(doc)].  The argument is [None] for Python's [None]; an empty
    dict is falsy as well. *)
Definition to_public (d : option doc) : option doc :=
  match d with
  | None => None
  | Some doc0 =>
      if decide (doc0 = ∅) then None
      else
        match doc0 !! "_id" with
        | Some v => Some (<["id" := VStr (str v)]> (delete "_id" doc0))
        | None => Some doc0
        end
  end.

(** Python's [s.split(sep)] for a one-character separator. *)
Fixpoint split (sep : ascii) (s : string) : list string :=
  match s with
  | EmptyString => [EmptyString]
  | String c s' =>
      if Ascii.eqb c sep then EmptyString :: split sep s'
      else
        match split sep s' with
        | h :: t => String c h :: t
        | [] => [String c EmptyString]
        end
  end.

(** ** Regular expressions of the store

    [directory] hands the [company] parameter to the store as the pattern of
    a [$regex] condition.  The fragment of the pattern syntax modelled here:
    ordinary characters, [.], the anchors [^] and [$], and a backslash
    followed by a character that is neither a letter nor a digit.  [parse]
    answers [None] on every other pattern. *)

Module Regex.

Inductive item :=
  | Lit (c : ascii)
  | AnyChar
  | Bol
  | Eol.

Definition in_range (lo hi : N) (c : ascii) : bool :=
  ((lo <=? N_of_ascii c) && (N_of_ascii c <=? hi))%N.

Definition is_alnum (c : ascii) : bool :=
  in_range 48 57 c || in_range 65 90 c || in_range 97 122 c.

Definition lower (c : ascii) : ascii :=
  if in_range 65 90 c then ascii_of_N (N_of_ascii c + 32) else c.

Fixpoint lower_str (s : string) : string :=
  match s with
  | EmptyString => EmptyString
  | String c s' => String (lower c) (lower_str s')
  end.

Fixpoint mem_char (c : ascii) (s : string) : bool :=
  match s with
  | EmptyString => false
  | String x s' => Ascii.eqb c x || mem_char c s'
  end.

(** The characters with a meaning of their own in a pattern. *)
Definition metachars : string := "\^$.[]|()?*+{}".

Definition metachar (c : ascii) : bool := mem_char c metachars.

Fixpoint parse (p : string) : option (list item) :=
  match p with
  | EmptyString => Some []
  | String c p' =>
      if Ascii.eqb c "\" then
        match p' with
        | String c2 p'' =>
            if is_alnum c2 then None else cons (Lit c2) <$> parse p''
        | EmptyString => None
        end
      else if Ascii.eqb c "." then cons AnyChar <$> parse p'
      else if Ascii.eqb c "^" then cons Bol <$> parse p'
      else if Ascii.eqb c "$" then cons Eol <$> parse p'
      else if metachar c then None
      else cons (Lit c) <$> parse p'
  end.

Definition char_eq (caseless : bool) (a b : ascii) : bool :=
  if caseless then Ascii.eqb (lower a) (lower b) else Ascii.eqb a b.

Definition newline : ascii := ascii_of_N 10.

(** Does the pattern match a prefix of [s]?  [at_start] tells whether [s] is
    the whole subject. *)
Fixpoint match_here (caseless : bool) (its : list item) (at_start : bool)
    (s : string) : bool :=
  match its with
  | [] => true
  | Lit c :: r =>
      match s with
      | String x s' => char_eq caseless c x && match_here caseless r false s'
      | EmptyString => false
      end
  | AnyChar :: r =>
      match s with
      | String x s' => negb (Ascii.eqb x newline) && match_here caseless r false s'
      | EmptyString => false
      end
  | Bol :: r => at_start && match_here caseless r at_start s
  | Eol :: r =>
      (String.eqb s EmptyString || String.eqb s (String newline EmptyString))
      && match_here caseless r at_start s
  end.

Fixpoint search_from (caseless : bool) (its : list item) (at_start : bool)
    (s : string) : bool :=
  match_here caseless its at_start s
  || match s with
     | String _ s' => search_from caseless its false s'
     | EmptyString => false
     end.

(** An unanchored search: the pattern matches somewhere in the subject. *)
Definition search (caseless : bool) (its : list item) (s : string) : bool :=
  search_from caseless its true s.

End Regex.

(** ** The document store *)

Module Collection.

Record collection := { docs : list doc; next_oid : N }.

(** A condition of a query document, as the program writes it. *)
Inductive cond :=
  | CEq (v : value)
  | CRegex (pattern options : string).

(** A condition after the store compiled its pattern. *)
Inductive matcher :=
  | MEq (v : value)
  | MRegex (its : list Regex.item) (caseless : bool).

Definition compile_cond (c : cond) : option matcher :=
  match c with
  | CEq v => Some (MEq v)
  | CRegex p o => its ← Regex.parse p; Some (MRegex its (Regex.mem_char "i" o))
  end.

Fixpoint compile (q : list (string * cond)) : option (list (string * matcher)) :=
  match q with
  | [] => Some []
  | (k, c) :: q' => m ← compile_cond c; r ← compile q'; Some ((k, m) :: r)
  end.

Definition matcher_holds (m : matcher) (fv : option value) : bool :=
  match m with
  | MEq v => bool_decide (fv = Some v)
  | MRegex its caseless =>
      match fv with
      | Some (VStr s) => Regex.search caseless its s
      | _ => false
      end
  end.

Definition doc_matches (q : list (string * matcher)) (d : doc) : bool :=
  forallb (fun '(k, m) => matcher_holds m (d !! k)) q.

(** [col.find(q)], in storage order. *)
Definition find (c : collection) (q : list (string * matcher)) : list doc :=
  List.filter (doc_matches q) (docs c).

(** [cursor.limit(n)]: zero means no limit, a negative [n] counts as [-n]. *)
Definition limit (n : Z) (l : list doc) : list doc :=
  if (n =? 0)%Z then l else firstn (Z.abs_nat n) l.

(** [col.find_one({k: v})]: the first document whose field [k] is [v]. *)
Definition find_one (c : collection) (k : string) (v : value) : option doc :=
  List.find (doc_matches [(k, MEq v)]) (docs c).

(** [col.insert_one(d).inserted_id]: a document without [_id] gets the next
    identifier of the store. *)
Definition insert_one (c : collection) (d : doc) : collection * value :=
  match d !! "_id" with
  | Some v => ({| docs := (docs c ++ [d])%list; next_oid := next_oid c |}, v)
  | None =>
      let v := VOid (next_oid c) in
      ({| docs := (docs c ++ [<["_id" := v]> d])%list;
          next_oid := N.succ (next_oid c) |}, v)
  end.

(** The update operator [$set]. *)
Definition set_fields (upd d : doc) : doc := upd ∪ d.

Fixpoint update_first (p : doc -> bool) (f : doc -> doc) (l : list doc)
    : list doc * Z :=
  match l with
  | [] => ([], 0%Z)
  | d :: l' =>
      if p d then (f d :: l', 1%Z)
      else let '(r, n) := update_first p f l' in (d :: r, n)
  end.

(** [col.update_one({k: v}, {"$set": upd})] with its [matched_count]. *)
Definition update_one (c : collection) (k : string) (v : value) (upd : doc)
    : collection * Z :=
  let '(l, n) := update_first (doc_matches [(k, MEq v)]) (set_fields upd) (docs c) in
  ({| docs := l; next_oid := next_oid c |}, n).

End Collection.
Export Collection.

Record database := { user : collection; event : collection }.

(** ** Models for requests *)

Module SignupPayload.
Record t := {
  name : string;
  email : string;
  status : string;
  phone : option string;
  batch_year : option Z;
  department : option string;
  current_company : option string;
  designation : option string
}.

(** [payload.model_dump().items()], in the order of the fields. *)
Definition model_dump (p : t) : list (string * option value) :=
  [ ("name", Some (VStr (name p)));
    ("email", Some (VStr (email p)));
    ("status", Some (VStr (status p)));
    ("phone", VStr <$> phone p);
    ("batch_year", VInt <$> batch_year p);
    ("department", VStr <$> department p);
    ("current_company", VStr <$> current_company p);
    ("designation", VStr <$> designation p) ].
End SignupPayload.

Module LoginPayload.
Record t := { email : string }.
End LoginPayload.

Module ProfileUpdatePayload.
Record t := {
  name : option string;
  phone : option string;
  batch_year : option Z;
  department : option string;
  current_company : option string;
  designation : option string;
  status : option string
}.

Definition model_dump (p : t) : list (string * option value) :=
  [ ("name", VStr <$> name p);
    ("phone", VStr <$> phone p);
    ("batch_year", VInt <$> batch_year p);
    ("department", VStr <$> department p);
    ("current_company", VStr <$> current_company p);
    ("designation", VStr <$> designation p);
    ("status", VStr <$> status p) ].
End ProfileUpdatePayload.

(** The comprehension [{k: v for k, v in items if v is not None}]. *)
Definition not_none (items : list (string * option value)) : doc :=
  foldl (fun m '(k, v) => match v with Some x => <[k := x]> m | None => m end)
        ∅ items.

(** ** Core endpoints *)

(** How a handler ends: with its return value, with an [HTTPException], or
    with a [KeyError] that nothing catches. *)
Inductive outcome (A : Type) :=
  | Ok (a : A)
  | HTTPException (status_code : Z) (detail : string)
  | KeyError (key : string).
Arguments Ok {A} a.
Arguments HTTPException {A} status_code detail.
Arguments KeyError {A} key.

(** The body [{"token": ..., "user": ...}] of the two auth endpoints. *)
Record auth_response := { token : string; user_ : option doc }.

(** Truth value of what [find_one] returned. *)
Definition truthy (d : option doc) : bool :=
  match d with
  | None => false
  | Some doc0 => if decide (doc0 = ∅) then false else true
  end.

Definition signup (db : option database) (payload : SignupPayload.t)
    : outcome auth_response * option database :=
  match db with
  | None => (HTTPException 500 "Database not configured", None)
  | Some d =>
      let user_col := user d in
      let existing := find_one user_col "email" (VStr (SignupPayload.email payload)) in
      let data := not_none (SignupPayload.model_dump payload) in
      if truthy existing then
        match existing ≫= (.!! "_id") with
        | None => (KeyError "_id", db)
        | Some _id =>
            let '(user_col', _) := update_one user_col "_id" _id data in
            let doc0 := find_one user_col' "_id" _id in
            (Ok {| token := SignupPayload.email payload; user_ := to_public doc0 |},
             Some {| user := user_col'; event := event d |})
        end
      else
        let '(user_col', _id) := insert_one user_col data in
        let doc0 := find_one user_col' "_id" _id in
        (Ok {| token := SignupPayload.email payload; user_ := to_public doc0 |},
         Some {| user := user_col'; event := event d |})
  end.

Definition login (db : option database) (payload : LoginPayload.t)
    : outcome auth_response * option database :=
  match db with
  | None => (HTTPException 500 "Database not configured", None)
  | Some d =>
      let user_col := user d in
      let email := LoginPayload.email payload in
      let doc0 := find_one user_col "email" (VStr email) in
      if negb (truthy doc0) then
        let '(user_col', _id) :=
          insert_one user_col
            (<["name" := VStr (hd EmptyString (split "@" email))]>
               (<["status" := VStr "student"]> {[ "email" := VStr email ]})) in
        let doc1 := find_one user_col' "_id" _id in
        (Ok {| token := email; user_ := to_public doc1 |},
         Some {| user := user_col'; event := event d |})
      else
        (Ok {| token := email; user_ := to_public doc0 |}, db)
  end.

Definition get_profile (db : option database) (email : string)
    : outcome (option doc) * option database :=
  match db with
  | None => (HTTPException 500 "Database not configured", None)
  | Some d =>
      let doc0 := find_one (user d) "email" (VStr email) in
      if negb (truthy doc0) then (HTTPException 404 "User not found", db)
      else (Ok (to_public doc0), db)
  end.

Definition update_profile (db : option database) (email : string)
    (payload : ProfileUpdatePayload.t) : outcome (option doc) * option database :=
  match db with
  | None => (HTTPException 500 "Database not configured", None)
  | Some d =>
      let user_col := user d in
      let updates := not_none (ProfileUpdatePayload.model_dump payload) in
      if decide (updates = ∅) then (HTTPException 400 "No fields to update", db)
      else
        let '(user_col', matched_count) := update_one user_col "email" (VStr email) updates in
        let db' := Some {| user := user_col'; event := event d |} in
        if (matched_count =? 0)%Z then (HTTPException 404 "User not found", db')
        else (Ok (to_public (find_one user_col' "email" (VStr email))), db')
  end.

(** The query document that [directory] builds. *)
Definition directory_filt (company : option string) (batch_year : option Z)
    : list (string * cond) :=
  let filt : list (string * cond) := [] in
  let filt :=
    match company with
    | Some c => if String.eqb c EmptyString then filt
                else (filt ++ [("current_company", CRegex c "i")])%list
    | None => filt
    end in
  let filt :=
    match batch_year with
    | Some y => (filt ++ [("batch_year", CEq (VInt y))])%list
    | None => filt
    end in
  filt.

(** [directory] reads only.  The result is [None] when [company] is a pattern
    outside the fragment of [Regex.parse]. *)
Definition directory (db : option database) (company : option string)
    (batch_year : option Z) (lim : Z) : option (outcome (list (option doc))) :=
  match db with
  | None => Some (HTTPException 500 "Database not configured")
  | Some d =>
      q ← compile (directory_filt company batch_year);
      Some (Ok (map (fun x => to_public (Some x)) (limit lim (find (user d) q))))
  end.

Definition default_event : doc :=
  <["audience" := VStr "All"]>
    (<["description" := VStr "Reconnect with your batch and faculty"]>
       (<["date" := VStr "2025-02-15"]> {[ "title" := VStr "Annual Alumni Meet" ]})).

Definition events (db : option database) : list (option doc) * option database :=
  match db with
  | None => ([Some default_event], None)
  | Some d =>
      let col := event d in
      let existing := limit 10 (find col []) in
      match existing with
      | [] =>
          let '(col', _) := insert_one col default_event in
          let existing := limit 10 (find col' []) in
          (map (fun e => to_public (Some e)) existing,
           Some {| user := user d; event := col' |})
      | _ => (map (fun e => to_public (Some e)) existing, db)
      end
  end.

(** ** Well-formed stores

    The store gives every document an [_id], unique in its collection, and
    has not yet handed out the identifiers from [next_oid] on. *)

Definition oid_below (bound : N) (d : doc) : Prop :=
  match d !! "_id" with
  | Some (VOid n) => (n < bound)%N
  | Some _ => True
  | None => False
  end.

#[global] Instance oid_below_dec bound d : Decision (oid_below bound d).
Proof. unfold oid_below. destruct (d !! "_id") as [[]|]; apply _. Defined.

Definition wf_collection (c : collection) : Prop :=
  Forall (oid_below (next_oid c)) (docs c)
  /\ NoDup ((fun d : doc => d !! "_id") <$> docs c).

#[global] Instance wf_collection_dec c : Decision (wf_collection c).
Proof. unfold wf_collection. apply _. Defined.

Definition wf_db (d : database) : Prop :=
  wf_collection (user d) /\ wf_collection (event d).

#[global] Instance wf_db_dec d : Decision (wf_db d).
Proof. unfold wf_db. apply _. Defined.

(** ** What the specification calls a case-insensitive substring *)

Definition ci_substring (needle hay : string) : Prop :=
  exists pre mid post,
    hay = pre ++ mid ++ post
    /\ Regex.lower_str mid = Regex.lower_str needle.

(** A pattern without metacharacters, and the items it stands for. *)
Fixpoint no_metachar (p : string) : bool :=
  match p with
  | EmptyString => true
  | String c p' => negb (Regex.metachar c) && no_metachar p'
  end.

Fixpoint lits (p : string) : list Regex.item :=
  match p with
  | EmptyString => []
  | String c p' => Regex.Lit c :: lits p'
  end.

(** A record as it leaves the system: the identifier under [id], as a
    string, and no [_id]. *)
Definition public_record (u : doc) : Prop :=
  (exists s, u !! "id" = Some (VStr s)) /\ u !! "_id" = None.

(** ** Sample data *)

Module Sample.

Definition ann : doc :=
  <["batch_year" := VInt 2020]>
    (<["current_company" := VStr "ACME Corp"]>
       (<["status" := VStr "alumnus"]>
          (<["name" := VStr "Ann"]>
             (<["email" := VStr "ann@x.com"]> {[ "_id" := VOid 0 ]})))).

Definition bob : doc :=
  <["current_company" := VStr "Other"]>
    (<["status" := VStr "student"]>
       (<["name" := VStr "bob"]>
          (<["email" := VStr "bob@x.com"]> {[ "_id" := VOid 1 ]}))).

Definition empty_db : database :=
  {| user := {| docs := []; next_oid := 0 |};
     event := {| docs := []; next_oid := 0 |} |}.

Definition two_users : database :=
  {| user := {| docs := [ann; bob]; next_oid := 2 |};
     event := {| docs := []; next_oid := 0 |} |}.

(** A second signup of Ann: a phone number and a new designation. *)
Definition ann_again : SignupPayload.t :=
  {| SignupPayload.name := "Ann B.";
     SignupPayload.email := "ann@x.com";
     SignupPayload.status := "alumnus";
     SignupPayload.phone := Some "555-0100";
     SignupPayload.batch_year := None;
     SignupPayload.department := None;
     SignupPayload.current_company := None;
     SignupPayload.designation := Some "Engineer" |}.

Definition carol : SignupPayload.t :=
  {| SignupPayload.name := "Carol";
     SignupPayload.email := "carol@x.com";
     SignupPayload.status := "student";
     SignupPayload.phone := None;
     SignupPayload.batch_year := Some 2024%Z;
     SignupPayload.department := Some "Physics";
     SignupPayload.current_company := None;
     SignupPayload.designation := None |}.

Definition new_login : LoginPayload.t := {| LoginPayload.email := "new@x.com" |}.

Definition bob_update : ProfileUpdatePayload.t :=
  {| ProfileUpdatePayload.name := None;
     ProfileUpdatePayload.phone := Some "555-0101";
     ProfileUpdatePayload.batch_year := Some 2026%Z;
     ProfileUpdatePayload.department := None;
     ProfileUpdatePayload.current_company := None;
     ProfileUpdatePayload.designation := None;
     ProfileUpdatePayload.status := None |}.

Definition no_update : ProfileUpdatePayload.t :=
  {| ProfileUpdatePayload.name := None;
     ProfileUpdatePayload.phone := None;
     ProfileUpdatePayload.batch_year := None;
     ProfileUpdatePayload.department := None;
     ProfileUpdatePayload.current_company := None;
     ProfileUpdatePayload.designation := None;
     ProfileUpdatePayload.status := None |}.

End Sample.

(** ** Diagnostics *)

Module Diagnostics.

(** What [test_database] asks of the handle [db]: its attribute [name]
    ([None] when the handle has no such attribute) and the answer of
    [list_collection_names()], which is the list of names or the text
    [str(e)] of the exception it raised. *)
Record handle := {
  name : option string;
  list_collection_names : string + list string
}.

(** The dict that [test_database] returns, key by key. *)
Record response := {
  backend : string;
  database : string;
  database_url : option string;
  database_name : option string;
  connection_status : string;
  collections : list string
}.

End Diagnostics.

(** [test_database()]; [DATABASE_URL] is [os.getenv("DATABASE_URL")]. *)
Definition test_database (db : option Diagnostics.handle)
    (DATABASE_URL : option string) : Diagnostics.response :=
  match db with
  | Some h =>
      let url :=
        match DATABASE_URL with
        | Some (String _ _) => "✅ Set"
        | _ => "❌ Not Set"
        end in
      let nm :=
        match Diagnostics.name h with
        | Some n => n
        | None => "✅ Connected"
        end in
      match Diagnostics.list_collection_names h with
      | inr cols =>
          {| Diagnostics.backend := "✅ Running";
             Diagnostics.database := "✅ Connected & Working";
             Diagnostics.database_url := Some url;
             Diagnostics.database_name := Some nm;
             Diagnostics.connection_status := "Connected";
             Diagnostics.collections := firstn 10 cols |}
      | inl e =>
          {| Diagnostics.backend := "✅ Running";
             Diagnostics.database := "⚠️ Connected but Error: " ++ substring 0 80 e;
             Diagnostics.database_url := Some url;
             Diagnostics.database_name := Some nm;
             Diagnostics.connection_status := "Connected";
             Diagnostics.collections := [] |}
      end
  | None =>
      {| Diagnostics.backend := "✅ Running";
         Diagnostics.database := "⚠️ Available but not initialized";
         Diagnostics.database_url := None;
         Diagnostics.database_name := None;
         Diagnostics.connection_status := "Not Connected";
         Diagnostics.collections := [] |}
  end.

(** ** The emails of a collection *)

Definition emails (c : collection) : list value :=
  omap (fun x : doc => x !! "email") (docs c).

(** ** The regular-expression engine of the store

    What a pattern means is the store's business. An engine answers, for a
    pattern and its options, [None] when it refuses the pattern (the query
    then raises and the call returns nothing), or else the test that it
    applies to the strings it searches. *)
Definition regex_engine : Type := string -> string -> option (string -> bool).

(** The engine that [Regex] describes, which [compile] uses. *)
Definition fragment_engine : regex_engine :=
  fun p o => its ← Regex.parse p; Some (Regex.search (Regex.mem_char "i" o) its).

(** The test that a condition of a query applies to a field. *)
Definition cond_test (engine : regex_engine) (c : cond)
    : option (option value -> bool) :=
  match c with
  | CEq v => Some (fun fv => bool_decide (fv = Some v))
  | CRegex p o =>
      m ← engine p o;
      Some (fun fv => match fv with Some (VStr s) => m s | _ => false end)
  end.

(** A document matches a query when every condition holds of its field. *)
Fixpoint query_test (engine : regex_engine) (q : list (string * cond))
    : option (doc -> bool) :=
  match q with
  | [] => Some (fun _ => true)
  | (k, c) :: q' =>
      t ← cond_test engine c;
      r ← query_test engine q';
      Some (fun x : doc => t (x !! k) && r x)
  end.

(** [col.find(q)] on a store with the given engine. *)
Definition find_with (engine : regex_engine) (c : collection)
    (q : list (string * cond)) : option (list doc) :=
  t ← query_test engine q; Some (List.filter t (docs c)).

(** [directory] on a store with the given engine. *)
Definition directory_with (engine : regex_engine) (db : option database)
    (company : option string) (batch_year : option Z) (lim : Z)
    : option (outcome (list (option doc))) :=
  match db with
  | None => Some (HTTPException 500 "Database not configured")
  | Some d =>
      docs0 ← find_with engine (user d) (directory_filt company batch_year);
      Some (Ok (map (fun x => to_public (Some x)) (limit lim docs0)))
  end.

(** Text of printable ASCII characters, from the space to the tilde. *)
Fixpoint ascii_text (s : string) : bool :=
  match s with
  | EmptyString => true
  | String c s' => Regex.in_range 32 126 c && ascii_text s'
  end.

(** An engine that reads a pattern of printable ASCII characters without
    metacharacters, under the option [i], as these characters one after the
    other, letters in either case, when it searches such a text. *)
Definition literal_engine (engine : regex_engine) : Prop :=
  forall c, no_metachar c = true -> ascii_text c = true ->
    exists m, engine c "i" = Some m
      /\ forall s, ascii_text s = true -> m s = Regex.search true (lits c) s.

(** * Properties *)

(** ** The definitions at work *)

Example to_public_ann :
  to_public (Some Sample.ann)
  = Some (<["id" := VStr "000000000000000000000000"]> (delete "_id" Sample.ann)).
Proof. reflexivity. Qed.

Example str_values :
  str (VOid 255) = "0000000000000000000000ff"
  /\ str (VInt (-2020)) = "-2020" /\ str (VInt 0) = "0" /\ str (VBool true) = "True".
Proof. repeat split. Qed.

Example split_at :
  split "@" "new@x.com" = ["new"; "x.com"]
  /\ split "@" "a@b@c" = ["a"; "b"; "c"]
  /\ split "@" "nobody" = ["nobody"]
  /\ split "@" "" = [""].
Proof. repeat split. Qed.

Example parse_patterns :
  Regex.parse "acme" = Some (lits "acme")
  /\ Regex.parse "^a.c$" = Some [Regex.Bol; Regex.Lit "a"; Regex.AnyChar;
                                 Regex.Lit "c"; Regex.Eol]
  /\ Regex.parse "a\.c" = Some [Regex.Lit "a"; Regex.Lit "."; Regex.Lit "c"]
  /\ Regex.parse "a*" = None
  /\ Regex.parse "(" = None.
Proof. repeat split. Qed.

Example search_patterns :
  Regex.search true (lits "acme") "ACME Corp" = true
  /\ Regex.search false (lits "acme") "ACME Corp" = false
  /\ Regex.search true (lits "acme") "Other" = false
  /\ Regex.search true [Regex.Bol; Regex.Lit "c"] "ACME Corp" = false
  /\ Regex.search true [Regex.Lit "p"; Regex.Eol] "ACME Corp" = true.
Proof. repeat split. Qed.

Example first_signup :
  snd (signup (Some Sample.empty_db) Sample.carol)
  = Some {| user := {| docs := [<["_id" := VOid 0]>
                                  (not_none (SignupPayload.model_dump Sample.carol))];
                       next_oid := 1 |};
            event := event Sample.empty_db |}.
Proof. vm_compute. reflexivity. Qed.

Example no_store :
  fst (signup None Sample.carol) = HTTPException 500 "Database not configured"
  /\ fst (login None Sample.new_login) = HTTPException 500 "Database not configured"
  /\ fst (get_profile None "ann@x.com") = HTTPException 500 "Database not configured"
  /\ directory None None None 50 = Some (HTTPException 500 "Database not configured").
Proof. repeat split. Qed.

Lemma hex_fixed_length w n acc :
  String.length (hex_fixed w n acc) = w + String.length acc.
Proof.
  revert n acc. induction w as [|w IH]; intros n acc; simpl; [done|].
  rewrite IH. simpl. lia.
Qed.

(** The string form of an [ObjectId] has 24 characters. *)
Lemma oid_str_length oid : String.length (oid_str oid) = 24.
Proof. unfold oid_str. by rewrite hex_fixed_length. Qed.

(** ** Lists: the first element that satisfies a test *)

Section FirstMatch.
Context {A : Type} (p : A -> bool).

Lemma find_first_split l x :
  List.find p l = Some x ->
  exists l1 l2, l = (l1 ++ x :: l2)%list /\ p x = true
                /\ Forall (fun y => p y = false) l1.
Proof.
  induction l as [|a l IH]; simpl; [discriminate|].
  destruct (p a) eqn:Ha.
  - intros [= <-]. exists [], l. auto.
  - intros H. destruct (IH H) as (l1 & l2 & -> & Hx & Hl1).
    exists (a :: l1), l2. repeat split; auto.
Qed.

Lemma find_first_none l :
  List.find p l = None -> Forall (fun y => p y = false) l.
Proof.
  induction l as [|a l IH]; simpl; [constructor|].
  destruct (p a) eqn:Ha; [discriminate|]. auto.
Qed.

Lemma find_first_app l1 x l2 :
  Forall (fun y => p y = false) l1 -> p x = true ->
  List.find p (l1 ++ x :: l2)%list = Some x.
Proof.
  induction 1 as [|a l1 Ha _ IH]; simpl; intros Hx.
  - by rewrite Hx.
  - rewrite Ha. auto.
Qed.
End FirstMatch.

Lemma update_first_app (p : doc -> bool) (f : doc -> doc) l1 x l2 :
  Forall (fun y => p y = false) l1 -> p x = true ->
  update_first p f (l1 ++ x :: l2)%list = ((l1 ++ f x :: l2)%list, 1%Z).
Proof.
  intros Hl1 Hx. induction Hl1 as [|a l1 Ha _ IH]; simpl.
  - by rewrite Hx.
  - rewrite Ha, IH. reflexivity.
Qed.

Lemma update_first_none (p : doc -> bool) (f : doc -> doc) l :
  Forall (fun y => p y = false) l -> update_first p f l = (l, 0%Z).
Proof.
  induction 1 as [|a l Ha _ IH]; simpl; [reflexivity|].
  rewrite Ha, IH. reflexivity.
Qed.

(** ** Queries by one field *)

Lemma field_eq_true k v (d : doc) :
  doc_matches [(k, MEq v)] d = true <-> d !! k = Some v.
Proof.
  unfold doc_matches; simpl. rewrite andb_true_r.
  apply bool_decide_eq_true.
Qed.

Lemma field_eq_false k v (d : doc) :
  doc_matches [(k, MEq v)] d = false <-> d !! k <> Some v.
Proof.
  unfold doc_matches; simpl. rewrite andb_true_r.
  apply bool_decide_eq_false.
Qed.

Lemma find_one_Some c k v e :
  find_one c k v = Some e ->
  exists l1 l2, docs c = (l1 ++ e :: l2)%list /\ e !! k = Some v
                /\ Forall (fun y : doc => y !! k <> Some v) l1.
Proof.
  intros H. apply find_first_split in H as (l1 & l2 & Hd & He & Hl1).
  exists l1, l2. split; [done|]. split; [by apply field_eq_true|].
  eapply Forall_impl; [exact Hl1|]. intros y. apply field_eq_false.
Qed.

Lemma find_one_None c k v :
  find_one c k v = None -> Forall (fun y : doc => y !! k <> Some v) (docs c).
Proof.
  intros H. apply find_first_none in H.
  eapply Forall_impl; [exact H|]. intros y. apply field_eq_false.
Qed.

Lemma find_one_first l1 e l2 n k v :
  Forall (fun y : doc => y !! k <> Some v) l1 -> e !! k = Some v ->
  find_one {| docs := (l1 ++ e :: l2)%list; next_oid := n |} k v = Some e.
Proof.
  intros Hl1 He. unfold find_one; simpl. apply find_first_app.
  - eapply Forall_impl; [exact Hl1|]. intros y. apply field_eq_false.
  - by apply field_eq_true.
Qed.

Lemma update_one_first c l1 e l2 k v upd :
  docs c = (l1 ++ e :: l2)%list ->
  Forall (fun y : doc => y !! k <> Some v) l1 -> e !! k = Some v ->
  update_one c k v upd
  = ({| docs := (l1 ++ set_fields upd e :: l2)%list; next_oid := next_oid c |}, 1%Z).
Proof.
  intros Hd Hl1 He. unfold update_one. rewrite Hd, update_first_app.
  - reflexivity.
  - eapply Forall_impl; [exact Hl1|]. intros y. apply field_eq_false.
  - by apply field_eq_true.
Qed.

Lemma update_one_none c k v upd :
  Forall (fun y : doc => y !! k <> Some v) (docs c) ->
  update_one c k v upd = (c, 0%Z).
Proof.
  intros H. unfold update_one. rewrite update_first_none.
  - by destruct c.
  - eapply Forall_impl; [exact H|]. intros y. apply field_eq_false.
Qed.

(** ** The comprehension that drops the null fields *)

Lemma not_none_from (items : list (string * option value)) (m : doc) k v :
  NoDup (items.*1) ->
  foldl (fun m '(k, v) => match v with Some x => <[k := x]> m | None => m end)
        m items !! k = Some v
  <-> (k, Some v) ∈ items
      \/ ((forall w, (k, Some w) ∉ items) /\ m !! k = Some v).
Proof.
  revert m. induction items as [|[k0 o] items IH]; intros m Hnd; simpl.
  - split; [intros H; right; split; [intros w; apply not_elem_of_nil|done]|].
    intros [H|[_ H]]; [by apply elem_of_nil in H|done].
  - apply NoDup_cons in Hnd as [Hk0 Hnd]. rewrite (IH _ Hnd).
    assert (forall w, (k0, w) ∉ items) as Hfresh.
    { intros w Hw. apply Hk0. apply list_elem_of_fmap. by exists (k0, w). }
    destruct o as [x|].
    + rewrite lookup_insert_Some. split.
      * intros [H|[Hk [[-> ->]|[Hne Hm]]]].
        -- left. by right.
        -- left. by left.
        -- right. split; [|done]. intros w Hw.
           apply elem_of_cons in Hw as [[= ? ?]|Hw]; [congruence|by apply (Hk w)].
      * intros [Hin|[Hk Hm]].
        -- apply elem_of_cons in Hin as [[= -> ->]|Hin]; [|by left].
           right. split; [intros w; apply Hfresh|by left].
        -- assert (k0 <> k) as Hne.
           { intros ->. apply (Hk x). by left. }
           right. split; [|by right].
           intros w Hw. apply (Hk w). by right.
    + split.
      * intros [H|[Hk Hm]]; [left; by right|].
        right. split; [|done]. intros w Hw.
        apply elem_of_cons in Hw as [[= ? ?]|Hw]. by apply (Hk w).
      * intros [Hin|[Hk Hm]].
        -- apply elem_of_cons in Hin as [[= ? ?]|Hin]. by left.
        -- right. split; [|done]. intros w Hw. apply (Hk w). by right.
Qed.

Lemma not_none_lookup (items : list (string * option value)) k v :
  NoDup (items.*1) ->
  not_none items !! k = Some v <-> (k, Some v) ∈ items.
Proof.
  intros Hnd. unfold not_none. rewrite not_none_from by done.
  rewrite lookup_empty. split; [intros [H|[_ H]]; [done|discriminate]|by left].
Qed.

Lemma not_none_absent (items : list (string * option value)) k :
  k ∉ items.*1 -> not_none items !! k = None.
Proof.
  assert (forall m : doc, k ∉ items.*1 ->
    foldl (fun m '(k, v) => match v with Some x => <[k := x]> m | None => m end)
          m items !! k = m !! k) as H.
  { induction items as [|[k0 o] items IH]; intros m Hk; simpl; [done|].
    apply not_elem_of_cons in Hk as [Hne Hk]. simpl in Hne.
    rewrite IH by done. destruct o; [by rewrite lookup_insert_ne|done]. }
  intros Hk. unfold not_none. rewrite H by done. apply lookup_empty.
Qed.

Lemma signup_fields_nodup p : NoDup ((SignupPayload.model_dump p).*1).
Proof. simpl. apply (bool_decide_unpack _). vm_compute. reflexivity. Qed.

Lemma profile_fields_nodup p : NoDup ((ProfileUpdatePayload.model_dump p).*1).
Proof. simpl. apply (bool_decide_unpack _). vm_compute. reflexivity. Qed.

Lemma signup_data_lookup p k v :
  not_none (SignupPayload.model_dump p) !! k = Some v
  <-> (k, Some v) ∈ SignupPayload.model_dump p.
Proof. apply not_none_lookup, signup_fields_nodup. Qed.

Lemma signup_data_no_id p : not_none (SignupPayload.model_dump p) !! "_id" = None.
Proof.
  apply not_none_absent. simpl. apply (bool_decide_unpack _). vm_compute. reflexivity.
Qed.

Lemma signup_data_email p :
  not_none (SignupPayload.model_dump p) !! "email" = Some (VStr (SignupPayload.email p)).
Proof. apply signup_data_lookup. simpl. set_solver. Qed.

Lemma profile_updates_lookup p k v :
  not_none (ProfileUpdatePayload.model_dump p) !! k = Some v
  <-> (k, Some v) ∈ ProfileUpdatePayload.model_dump p.
Proof. apply not_none_lookup, profile_fields_nodup. Qed.

Lemma profile_updates_no_email p :
  not_none (ProfileUpdatePayload.model_dump p) !! "email" = None.
Proof.
  apply not_none_absent. simpl. apply (bool_decide_unpack _). vm_compute. reflexivity.
Qed.

Lemma profile_updates_no_id p :
  not_none (ProfileUpdatePayload.model_dump p) !! "_id" = None.
Proof.
  apply not_none_absent. simpl. apply (bool_decide_unpack _). vm_compute. reflexivity.
Qed.

(** ** [$set] *)

Lemma set_fields_present (upd d : doc) k v :
  upd !! k = Some v -> set_fields upd d !! k = Some v.
Proof. intros H. unfold set_fields. by apply lookup_union_Some_l. Qed.

Lemma set_fields_absent (upd d : doc) k :
  upd !! k = None -> set_fields upd d !! k = d !! k.
Proof. intros H. unfold set_fields. by apply lookup_union_r. Qed.

(** ** The projection *)

Lemma to_public_with_id (d : doc) v :
  d !! "_id" = Some v ->
  to_public (Some d) = Some (<["id" := VStr (str v)]> (delete "_id" d)).
Proof.
  intros H. unfold to_public. destruct (decide (d = ∅)) as [->|_].
  - by rewrite lookup_empty in H.
  - by rewrite H.
Qed.

Lemma to_public_is_public (d : doc) v :
  d !! "_id" = Some v ->
  exists u, to_public (Some d) = Some u /\ public_record u.
Proof.
  intros H. rewrite (to_public_with_id _ _ H). eexists; split; [reflexivity|].
  split.
  - exists (str v). apply lookup_insert_eq.
  - rewrite lookup_insert_ne by done. apply lookup_delete_eq.
Qed.

(** ** Well-formed collections *)

Lemma oid_below_has_id bound (d : doc) :
  oid_below bound d -> exists v, d !! "_id" = Some v.
Proof. unfold oid_below. destruct (d !! "_id"); [eauto|tauto]. Qed.

Lemma wf_has_id c (e : doc) :
  wf_collection c -> e ∈ docs c -> exists v, e !! "_id" = Some v.
Proof.
  intros [Hb _] He. rewrite Forall_forall in Hb.
  eapply oid_below_has_id, Hb, He.
Qed.

Lemma wf_fresh c :
  wf_collection c ->
  Forall (fun y : doc => y !! "_id" <> Some (VOid (next_oid c))) (docs c).
Proof.
  intros [Hb _]. eapply Forall_impl; [exact Hb|].
  intros y Hy E. unfold oid_below in Hy. rewrite E in Hy. lia.
Qed.

Lemma wf_unique c l1 (e : doc) l2 v :
  wf_collection c -> docs c = (l1 ++ e :: l2)%list -> e !! "_id" = Some v ->
  Forall (fun y : doc => y !! "_id" <> Some v) l1.
Proof.
  intros [_ Hnd] Hd He. rewrite Hd, fmap_app, fmap_cons in Hnd.
  apply NoDup_app in Hnd as (_ & Hdis & _).
  apply Forall_forall. intros y Hy E.
  apply (Hdis (Some v)).
  - apply list_elem_of_fmap. by exists y.
  - rewrite He. by left.
Qed.

Lemma wf_empty n : wf_collection {| docs := []; next_oid := n |}.
Proof. split; simpl; constructor. Qed.

(** ** Signup and login, case by case *)

Lemma truthy_found c k v e : find_one c k v = Some e -> truthy (Some e) = true.
Proof.
  intros H. apply find_one_Some in H as (_ & _ & _ & He & _).
  unfold truthy. destruct (decide (e = ∅)) as [->|_]; [|done].
  by rewrite lookup_empty in He.
Qed.

Lemma signup_existing d payload e :
  wf_db d ->
  find_one (user d) "email" (VStr (SignupPayload.email payload)) = Some e ->
  let data := not_none (SignupPayload.model_dump payload) in
  exists l1 l2 v,
    docs (user d) = (l1 ++ e :: l2)%list
    /\ e !! "_id" = Some v
    /\ set_fields data e !! "_id" = Some v
    /\ signup (Some d) payload
       = (Ok {| token := SignupPayload.email payload;
                user_ := to_public (Some (set_fields data e)) |},
          Some {| user := {| docs := (l1 ++ set_fields data e :: l2)%list;
                             next_oid := next_oid (user d) |};
                  event := event d |}).
Proof.
  intros [Hwf _] Hfind data.
  pose proof (truthy_found _ _ _ _ Hfind) as Htruthy.
  destruct (find_one_Some _ _ _ _ Hfind) as (l1 & l2 & Hdocs & _ & _).
  destruct (wf_has_id _ e Hwf) as [v Hv].
  { rewrite Hdocs. apply elem_of_app. right. by left. }
  pose proof (wf_unique _ _ _ _ _ Hwf Hdocs Hv) as Hl1.
  assert (set_fields data e !! "_id" = Some v) as Hv'.
  { rewrite set_fields_absent; [done|apply signup_data_no_id]. }
  exists l1, l2, v. repeat (split; [done|]).
  unfold signup. rewrite Hfind, Htruthy. simpl. rewrite Hv.
  rewrite (update_one_first _ _ _ _ _ _ _ Hdocs Hl1 Hv).
  fold data. by rewrite (find_one_first _ _ _ _ _ _ Hl1 Hv').
Qed.

Lemma insert_one_fresh c (d0 : doc) :
  wf_collection c -> d0 !! "_id" = None ->
  let r := <["_id" := VOid (next_oid c)]> d0 in
  let c' := {| docs := (docs c ++ [r])%list; next_oid := N.succ (next_oid c) |} in
  insert_one c d0 = (c', VOid (next_oid c))
  /\ find_one c' "_id" (VOid (next_oid c)) = Some r.
Proof.
  intros Hwf Hd0 r c'. split.
  - unfold insert_one. by rewrite Hd0.
  - apply find_one_first; [by apply wf_fresh|]. apply lookup_insert_eq.
Qed.

Lemma signup_new d payload :
  wf_db d ->
  find_one (user d) "email" (VStr (SignupPayload.email payload)) = None ->
  let r := <["_id" := VOid (next_oid (user d))]>
             (not_none (SignupPayload.model_dump payload)) in
  signup (Some d) payload
  = (Ok {| token := SignupPayload.email payload; user_ := to_public (Some r) |},
     Some {| user := {| docs := (docs (user d) ++ [r])%list;
                        next_oid := N.succ (next_oid (user d)) |};
             event := event d |}).
Proof.
  intros [Hwf _] Hfind r.
  destruct (insert_one_fresh _ _ Hwf (signup_data_no_id payload)) as [Hins Hget].
  unfold signup. rewrite Hfind. cbn [truthy]. rewrite Hins.
  by rewrite Hget.
Qed.

Lemma login_found d payload e :
  find_one (user d) "email" (VStr (LoginPayload.email payload)) = Some e ->
  login (Some d) payload
  = (Ok {| token := LoginPayload.email payload; user_ := to_public (Some e) |},
     Some d).
Proof.
  intros Hfind. unfold login. rewrite Hfind.
  by rewrite (truthy_found _ _ _ _ Hfind).
Qed.

(** The record that [login] provisions for [email]. *)
Lemma login_new d payload :
  wf_db d ->
  find_one (user d) "email" (VStr (LoginPayload.email payload)) = None ->
  let email := LoginPayload.email payload in
  let r := <["_id" := VOid (next_oid (user d))]>
             (<["name" := VStr (hd EmptyString (split "@" email))]>
                (<["status" := VStr "student"]> {[ "email" := VStr email ]})) in
  login (Some d) payload
  = (Ok {| token := email; user_ := to_public (Some r) |},
     Some {| user := {| docs := (docs (user d) ++ [r])%list;
                        next_oid := N.succ (next_oid (user d)) |};
             event := event d |}).
Proof.
  intros [Hwf _] Hfind email r.
  assert ((<["name" := VStr (hd EmptyString (split "@" email))]>
             (<["status" := VStr "student"]> {[ "email" := VStr email ]}) : doc)
          !! "_id" = None) as Hnoid.
  { by rewrite !lookup_insert_ne, lookup_singleton_ne. }
  destruct (insert_one_fresh _ _ Hwf Hnoid) as [Hins Hget].
  unfold login. rewrite Hfind. cbn [truthy negb]. fold email.
  rewrite Hins. by rewrite Hget.
Qed.

(** ** [split] and the local part of an address *)

Lemma split_head_before sep a b :
  Regex.mem_char sep a = false ->
  hd EmptyString (split sep (a ++ String sep b)) = a.
Proof.
  induction a as [|c a IH]; simpl; intros Ha.
  - by rewrite Ascii.eqb_refl.
  - apply orb_false_iff in Ha as [Hc Ha]. rewrite Ascii.eqb_sym, Hc.
    specialize (IH Ha). destruct (split sep (a ++ String sep b)); simpl in *;
      by rewrite IH.
Qed.

Lemma split_head_whole sep s :
  Regex.mem_char sep s = false -> hd EmptyString (split sep s) = s.
Proof.
  induction s as [|c s IH]; simpl; intros Hs; [done|].
  apply orb_false_iff in Hs as [Hc Hs]. rewrite Ascii.eqb_sym, Hc.
  specialize (IH Hs). destruct (split sep s); simpl in *; by rewrite IH.
Qed.

(** * The claims *)

(** C1. Upsert by email: [signup] merges the non-null fields of the payload
    into the first record stored under that email, every other field of
    the record keeping its value, or stores a new record made of the
    non-null fields and the identifier the store assigns; the record that
    results is the one returned, projected. *)
Theorem signup_upsert_by_email (d : database) (payload : SignupPayload.t) :
  wf_db d ->
  let email := SignupPayload.email payload in
  let data := not_none (SignupPayload.model_dump payload) in
  (forall k v, data !! k = Some v <-> (k, Some v) ∈ SignupPayload.model_dump payload)
  /\ (forall e, find_one (user d) "email" (VStr email) = Some e ->
        exists l1 l2,
          docs (user d) = (l1 ++ e :: l2)%list
          /\ signup (Some d) payload
             = (Ok {| token := email; user_ := to_public (Some (set_fields data e)) |},
                Some {| user := {| docs := (l1 ++ set_fields data e :: l2)%list;
                                   next_oid := next_oid (user d) |};
                        event := event d |})
          /\ (forall k v, data !! k = Some v -> set_fields data e !! k = Some v)
          /\ (forall k, data !! k = None -> set_fields data e !! k = e !! k))
  /\ (find_one (user d) "email" (VStr email) = None ->
        let r := <["_id" := VOid (next_oid (user d))]> data in
        signup (Some d) payload
        = (Ok {| token := email; user_ := to_public (Some r) |},
           Some {| user := {| docs := (docs (user d) ++ [r])%list;
                              next_oid := N.succ (next_oid (user d)) |};
                   event := event d |})
        /\ (forall k, k <> "_id" -> r !! k = data !! k)).
Proof.
  intros Hwf email data. split; [|split].
  - intros k v. apply signup_data_lookup.
  - intros e Hfind.
    destruct (signup_existing d payload e Hwf Hfind) as (l1 & l2 & v & Hd & _ & _ & Hs).
    exists l1, l2. split; [done|]. split; [exact Hs|]. split.
    + intros k w. apply set_fields_present.
    + intros k. apply set_fields_absent.
  - intros Hfind r. split.
    + exact (signup_new d payload Hwf Hfind).
    + intros k Hk. unfold r. by rewrite lookup_insert_ne.
Qed.

Lemma signup_upsert_by_email_witness :
  wf_db Sample.two_users
  /\ exists l1 l2 e',
       docs (user Sample.two_users) = (l1 ++ Sample.ann :: l2)%list
       /\ fst (signup (Some Sample.two_users) Sample.ann_again)
          = Ok {| token := "ann@x.com"; user_ := to_public (Some e') |}
       /\ e' !! "phone" = Some (VStr "555-0100")
       /\ e' !! "batch_year" = Some (VInt 2020).
Proof.
  assert (wf_db Sample.two_users) as Hwf.
  { apply (bool_decide_unpack _). vm_compute. reflexivity. }
  split; [exact Hwf|].
  destruct (signup_upsert_by_email Sample.two_users Sample.ann_again Hwf)
    as (_ & Hex & _).
  destruct (Hex Sample.ann) as (l1 & l2 & Hd & Hs & Hset & Hkeep).
  { vm_compute. reflexivity. }
  exists l1, l2. eexists. split; [exact Hd|]. split; [by rewrite Hs|]. split.
  - apply Hset. vm_compute. reflexivity.
  - rewrite Hkeep; vm_compute; reflexivity.
Defined.

(** C2. Find or provision: [login] returns the first record stored under the
    email and leaves the store as it is, or stores and returns a record of
    exactly [email], [status = "student"] and [name], the part of the
    address before its first [@] (with the identifier the store assigns). *)
Theorem login_find_or_provision (d : database) (payload : LoginPayload.t) :
  wf_db d ->
  let email := LoginPayload.email payload in
  (forall e, find_one (user d) "email" (VStr email) = Some e ->
     login (Some d) payload
     = (Ok {| token := email; user_ := to_public (Some e) |}, Some d))
  /\ (find_one (user d) "email" (VStr email) = None ->
        exists name,
          let r : doc :=
            <["_id" := VOid (next_oid (user d))]>
              (<["name" := VStr name]>
                 (<["status" := VStr "student"]> {[ "email" := VStr email ]})) in
          login (Some d) payload
          = (Ok {| token := email; user_ := to_public (Some r) |},
             Some {| user := {| docs := (docs (user d) ++ [r])%list;
                                next_oid := N.succ (next_oid (user d)) |};
                     event := event d |})
          /\ (forall a b, email = a ++ String "@" b ->
                Regex.mem_char "@" a = false -> name = a)
          /\ (Regex.mem_char "@" email = false -> name = email)).
Proof.
  intros Hwf email. split.
  - intros e Hfind. by apply login_found.
  - intros Hfind. exists (hd EmptyString (split "@" email)).
    split; [exact (login_new d payload Hwf Hfind)|]. split.
    + intros a b -> Ha. by apply split_head_before.
    + apply split_head_whole.
Qed.

Lemma login_find_or_provision_witness :
  wf_db Sample.two_users
  /\ exists r : doc,
       fst (login (Some Sample.two_users) Sample.new_login)
       = Ok {| token := "new@x.com"; user_ := to_public (Some r) |}
       /\ r !! "name" = Some (VStr "new")
       /\ r !! "status" = Some (VStr "student").
Proof.
  assert (wf_db Sample.two_users) as Hwf.
  { apply (bool_decide_unpack _). vm_compute. reflexivity. }
  split; [exact Hwf|].
  destruct (login_find_or_provision Sample.two_users Sample.new_login Hwf)
    as (_ & Hnew).
  destruct Hnew as (name & Hl & Hname & _); [vm_compute; reflexivity|].
  rewrite (Hname "new" "x.com" eq_refl eq_refl) in Hl.
  eexists. split; [by rewrite Hl|]. split; vm_compute; reflexivity.
Defined.

(** ** Profile update, case by case *)

Lemma update_profile_no_fields d email payload :
  not_none (ProfileUpdatePayload.model_dump payload) = ∅ ->
  update_profile (Some d) email payload
  = (HTTPException 400 "No fields to update", Some d).
Proof.
  intros H. unfold update_profile. by rewrite decide_True.
Qed.

Lemma update_profile_not_found d email payload :
  not_none (ProfileUpdatePayload.model_dump payload) <> ∅ ->
  find_one (user d) "email" (VStr email) = None ->
  update_profile (Some d) email payload
  = (HTTPException 404 "User not found", Some d).
Proof.
  intros Hne Hfind. unfold update_profile. rewrite decide_False by done.
  rewrite update_one_none by (by apply find_one_None).
  simpl. by destruct d.
Qed.

Lemma update_profile_found d email payload e :
  not_none (ProfileUpdatePayload.model_dump payload) <> ∅ ->
  find_one (user d) "email" (VStr email) = Some e ->
  let updates := not_none (ProfileUpdatePayload.model_dump payload) in
  exists l1 l2,
    docs (user d) = (l1 ++ e :: l2)%list
    /\ update_profile (Some d) email payload
       = (Ok (to_public (Some (set_fields updates e))),
          Some {| user := {| docs := (l1 ++ set_fields updates e :: l2)%list;
                             next_oid := next_oid (user d) |};
                  event := event d |}).
Proof.
  intros Hne Hfind updates.
  destruct (find_one_Some _ _ _ _ Hfind) as (l1 & l2 & Hd & He & Hl1).
  exists l1, l2. split; [done|].
  unfold update_profile. rewrite decide_False by done.
  rewrite (update_one_first _ _ _ _ _ _ _ Hd Hl1 He).
  cbn [Z.eqb]. fold updates.
  rewrite (find_one_first l1 (set_fields updates e) l2); [done|done|].
  rewrite set_fields_absent; [done|apply profile_updates_no_email].
Qed.

(** C3. Profile update: a payload without a non-null field ends in the 400
    error and leaves the store as it is; otherwise an email that no record
    carries ends in the 404 error; otherwise the non-null fields are merged
    into the first record under that email and the merged record is
    returned, projected. *)
Theorem update_profile_cases (d : database) (email : string)
    (payload : ProfileUpdatePayload.t) :
  let updates := not_none (ProfileUpdatePayload.model_dump payload) in
  (forall k v, updates !! k = Some v
               <-> (k, Some v) ∈ ProfileUpdatePayload.model_dump payload)
  /\ (updates = ∅ ->
        update_profile (Some d) email payload
        = (HTTPException 400 "No fields to update", Some d))
  /\ (updates <> ∅ -> find_one (user d) "email" (VStr email) = None ->
        update_profile (Some d) email payload
        = (HTTPException 404 "User not found", Some d))
  /\ (updates <> ∅ ->
      forall e, find_one (user d) "email" (VStr email) = Some e ->
        exists l1 l2,
          docs (user d) = (l1 ++ e :: l2)%list
          /\ update_profile (Some d) email payload
             = (Ok (to_public (Some (set_fields updates e))),
                Some {| user := {| docs := (l1 ++ set_fields updates e :: l2)%list;
                                   next_oid := next_oid (user d) |};
                        event := event d |})
          /\ (forall k v, updates !! k = Some v -> set_fields updates e !! k = Some v)
          /\ (forall k, updates !! k = None -> set_fields updates e !! k = e !! k)).
Proof.
  intros updates. split; [|split; [|split]].
  - intros k v. apply profile_updates_lookup.
  - apply update_profile_no_fields.
  - apply update_profile_not_found.
  - intros Hne e Hfind.
    destruct (update_profile_found d email payload e Hne Hfind) as (l1 & l2 & Hd & Hu).
    exists l1, l2. split; [done|]. split; [exact Hu|]. split.
    + intros k v. apply set_fields_present.
    + intros k. apply set_fields_absent.
Qed.

Lemma update_profile_cases_witness :
  update_profile (Some Sample.two_users) "bob@x.com" Sample.no_update
  = (HTTPException 400 "No fields to update", Some Sample.two_users)
  /\ update_profile (Some Sample.two_users) "zed@x.com" Sample.bob_update
     = (HTTPException 404 "User not found", Some Sample.two_users)
  /\ exists e' : doc,
       fst (update_profile (Some Sample.two_users) "bob@x.com" Sample.bob_update)
       = Ok (to_public (Some e'))
       /\ e' !! "phone" = Some (VStr "555-0101")
       /\ e' !! "name" = Some (VStr "bob").
Proof.
  split; [|split].
  - apply (update_profile_cases Sample.two_users "bob@x.com" Sample.no_update).
    vm_compute. reflexivity.
  - apply (update_profile_cases Sample.two_users "zed@x.com" Sample.bob_update).
    + vm_compute. discriminate.
    + vm_compute. reflexivity.
  - destruct (update_profile_cases Sample.two_users "bob@x.com" Sample.bob_update)
      as (_ & _ & _ & Hex).
    destruct (Hex ltac:(vm_compute; discriminate) Sample.bob ltac:(vm_compute; reflexivity))
      as (l1 & l2 & _ & Hu & Hset & Hkeep).
    eexists. split; [by rewrite Hu|]. split.
    + apply Hset. vm_compute. reflexivity.
    + rewrite Hkeep; vm_compute; reflexivity.
Defined.

(** ** Reading a whole collection *)

Lemma find_all c : find c [] = docs c.
Proof.
  unfold find. induction (docs c) as [|x l IH]; simpl; [done|]. by rewrite IH.
Qed.

Lemma limit_10 l : limit 10 l = firstn 10 l.
Proof. reflexivity. Qed.

Lemma limit_subseteq n (l : list doc) : limit n l ⊆ l.
Proof.
  unfold limit. destruct (n =? 0)%Z; [done|]. apply subseteq_take.
Qed.

Lemma default_event_no_id : default_event !! "_id" = None.
Proof. vm_compute. reflexivity. Qed.

Lemma events_seed d :
  docs (event d) = [] ->
  let r := <["_id" := VOid (next_oid (event d))]> default_event in
  events (Some d)
  = ([to_public (Some r)],
     Some {| user := user d;
             event := {| docs := [r]; next_oid := N.succ (next_oid (event d)) |} |}).
Proof.
  intros He r. unfold events. rewrite find_all, He. cbn [limit Z.eqb firstn Z.abs_nat].
  unfold insert_one. rewrite default_event_no_id, He. cbn [app].
  by rewrite find_all.
Qed.

Lemma events_existing d :
  docs (event d) <> [] ->
  events (Some d)
  = (map (fun e => to_public (Some e)) (firstn 10 (docs (event d))), Some d).
Proof.
  intros He. unfold events. rewrite find_all, limit_10.
  destruct (docs (event d)) as [|x l]; [done|]. reflexivity.
Qed.

(** C5. Events: without a store, one sample event and nothing stored; on an
    empty collection, one default event is stored and returned, and the
    next call returns that same record and stores nothing; otherwise the
    first ten stored events, and the store is left as it is. *)
Theorem events_fallback_seed :
  events None = ([Some default_event], None)
  /\ (forall d, docs (event d) = [] ->
        let r := <["_id" := VOid (next_oid (event d))]> default_event in
        let d' := {| user := user d;
                     event := {| docs := [r];
                                 next_oid := N.succ (next_oid (event d)) |} |} in
        events (Some d) = ([to_public (Some r)], Some d')
        /\ events (Some d') = ([to_public (Some r)], Some d'))
  /\ (forall d, docs (event d) <> [] ->
        events (Some d)
        = (map (fun e => to_public (Some e)) (firstn 10 (docs (event d))), Some d)).
Proof.
  split; [reflexivity|]. split.
  - intros d He r d'. split; [by apply events_seed|].
    by rewrite events_existing.
  - apply events_existing.
Qed.

Lemma events_fallback_seed_witness :
  exists r : doc,
    events (Some Sample.empty_db) = ([Some r], Some
      {| user := user Sample.empty_db;
         event := {| docs := [<["_id" := VOid 0]> default_event]; next_oid := 1 |} |})
    /\ r !! "title" = Some (VStr "Annual Alumni Meet")
    /\ r !! "id" = Some (VStr "000000000000000000000000").
Proof.
  destruct events_fallback_seed as (_ & Hseed & _).
  destruct (Hseed Sample.empty_db eq_refl) as [H1 _].
  eexists. split; [rewrite H1; vm_compute; reflexivity|].
  split; vm_compute; reflexivity.
Defined.

(** C6. The projection: nothing for no record (and for an empty one); for a
    record with an identifier, a copy without [_id] that holds the string
    form of the identifier under [id] and every other field as it was, a
    field that the record lacks being absent from the copy as well; a
    record without identifier is copied as it is. *)
Theorem to_public_projection :
  to_public None = None
  /\ to_public (Some ∅) = None
  /\ (forall (d : doc) v, d !! "_id" = Some v ->
        exists r : doc,
          to_public (Some d) = Some r
          /\ r !! "_id" = None
          /\ r !! "id" = Some (VStr (str v))
          /\ forall k, k <> "_id" -> k <> "id" -> r !! k = d !! k)
  /\ (forall d : doc, d <> ∅ -> d !! "_id" = None -> to_public (Some d) = Some d).
Proof.
  split; [reflexivity|]. split; [reflexivity|]. split.
  - intros d v Hv. rewrite (to_public_with_id _ _ Hv).
    eexists. split; [reflexivity|]. split; [|split].
    + rewrite lookup_insert_ne by done. apply lookup_delete_eq.
    + apply lookup_insert_eq.
    + intros k H1 H2. by rewrite lookup_insert_ne, lookup_delete_ne.
  - intros d Hd Hv. unfold to_public. rewrite decide_False by done. by rewrite Hv.
Qed.

Lemma to_public_projection_witness :
  exists r : doc,
    to_public (Some Sample.ann) = Some r
    /\ r !! "_id" = None
    /\ r !! "id" = Some (VStr "000000000000000000000000")
    /\ r !! "email" = Some (VStr "ann@x.com")
    /\ r !! "phone" = None.
Proof.
  destruct to_public_projection as (_ & _ & Hrec & _).
  destruct (Hrec Sample.ann (VOid 0) eq_refl) as (r & Hr & Hnoid & Hid & Hrest).
  exists r. split; [exact Hr|]. split; [exact Hnoid|]. split; [exact Hid|].
  split; rewrite Hrest by done; reflexivity.
Defined.

(** ** Records that leave the system *)

Lemma public_of_stored c (x : doc) :
  wf_collection c -> x ∈ docs c ->
  exists u, to_public (Some x) = Some u /\ public_record u.
Proof.
  intros Hwf Hx. destruct (wf_has_id _ _ Hwf Hx) as [v Hv].
  eapply to_public_is_public, Hv.
Qed.

Lemma public_of_stored_list c (l : list doc) :
  wf_collection c -> l ⊆ docs c ->
  Forall (fun o => exists u, o = Some u /\ public_record u)
         (map (fun x => to_public (Some x)) l).
Proof.
  intros Hwf Hl. apply Forall_forall. intros o Ho.
  apply list_elem_of_In, in_map_iff in Ho as (x & <- & Hx).
  apply list_elem_of_In in Hx.
  destruct (public_of_stored c x Hwf (Hl _ Hx)) as (u & Hu & Hp). eauto.
Qed.

Lemma find_one_elem c k v e : find_one c k v = Some e -> e ∈ docs c.
Proof.
  intros H. apply find_one_Some in H as (l1 & l2 & -> & _).
  apply elem_of_app. right. by left.
Qed.

Lemma find_subseteq c q : find c q ⊆ docs c.
Proof.
  intros x Hx. apply list_elem_of_In. apply list_elem_of_In in Hx.
  unfold find in Hx. by apply filter_In in Hx as [Hx _].
Qed.

(** C7, as the code has it. With a store, every record that an endpoint
    returns holds its identifier under [id], as a string, and has no [_id];
    without a store, [events] answers with the sample event, which has
    neither [_id] nor [id]. *)
Theorem responses_carry_public_id (d : database) :
  wf_db d ->
  (forall p r, fst (signup (Some d) p) = Ok r ->
     exists u, user_ r = Some u /\ public_record u)
  /\ (forall p r, fst (login (Some d) p) = Ok r ->
        exists u, user_ r = Some u /\ public_record u)
  /\ (forall email o, fst (get_profile (Some d) email) = Ok o ->
        exists u, o = Some u /\ public_record u)
  /\ (forall email p o, fst (update_profile (Some d) email p) = Ok o ->
        exists u, o = Some u /\ public_record u)
  /\ (forall company batch_year lim l,
        directory (Some d) company batch_year lim = Some (Ok l) ->
        Forall (fun o => exists u, o = Some u /\ public_record u) l)
  /\ Forall (fun o => exists u, o = Some u /\ public_record u)
            (fst (events (Some d)))
  /\ Forall (fun o => exists u : doc,
               o = Some u /\ u !! "_id" = None /\ u !! "id" = None)
            (fst (events None)).
Proof.
  intros Hwf. pose proof Hwf as [Hu He]. repeat split.
  - intros p r.
    destruct (find_one (user d) "email" (VStr (SignupPayload.email p))) as [e|] eqn:Hfind.
    + destruct (signup_existing d p e Hwf Hfind) as (l1 & l2 & v & _ & _ & Hv & ->).
      intros [= <-]. simpl. eapply to_public_is_public, Hv.
    + rewrite (signup_new d p Hwf Hfind). intros [= <-]. simpl.
      eapply to_public_is_public. apply lookup_insert_eq.
  - intros p r.
    destruct (find_one (user d) "email" (VStr (LoginPayload.email p))) as [e|] eqn:Hfind.
    + rewrite (login_found d p e Hfind). intros [= <-]. simpl.
      eapply public_of_stored, find_one_elem, Hfind. done.
    + rewrite (login_new d p Hwf Hfind). intros [= <-]. simpl.
      eapply to_public_is_public. apply lookup_insert_eq.
  - intros email o. unfold get_profile.
    destruct (find_one (user d) "email" (VStr email)) as [e|] eqn:Hfind.
    + rewrite (truthy_found _ _ _ _ Hfind). intros [= <-].
      eapply public_of_stored, find_one_elem, Hfind. done.
    + discriminate.
  - intros email p o.
    destruct (decide (not_none (ProfileUpdatePayload.model_dump p) = ∅)) as [E|Hne].
    { by rewrite update_profile_no_fields. }
    destruct (find_one (user d) "email" (VStr email)) as [e|] eqn:Hfind.
    + destruct (update_profile_found d email p e Hne Hfind) as (l1 & l2 & _ & ->).
      intros [= <-].
      destruct (wf_has_id _ e Hu (find_one_elem _ _ _ _ Hfind)) as [v Hv].
      eapply to_public_is_public.
      rewrite set_fields_absent; [exact Hv|apply profile_updates_no_id].
    + by rewrite update_profile_not_found.
  - intros company batch_year lim l. unfold directory.
    destruct (compile (directory_filt company batch_year)) as [q|]; [|discriminate].
    intros [= <-]. apply (public_of_stored_list (user d)); [done|].
    etrans; [apply limit_subseteq|apply find_subseteq].
  - destruct (docs (event d)) as [|x l] eqn:Hd.
    + rewrite events_seed by done. repeat constructor.
      eapply to_public_is_public. apply lookup_insert_eq.
    + rewrite events_existing by (by rewrite Hd).
      apply (public_of_stored_list (event d)); [done|]. simpl.
      rewrite Hd. apply (subseteq_take 10).
  - repeat constructor. exists default_event. repeat split.
Qed.

Lemma responses_carry_public_id_witness :
  wf_db Sample.two_users
  /\ Forall (fun o => exists u, o = Some u /\ public_record u)
            (fst (events (Some Sample.two_users))).
Proof.
  assert (wf_db Sample.two_users) as Hwf.
  { apply (bool_decide_unpack _). vm_compute. reflexivity. }
  split; [exact Hwf|].
  apply (responses_carry_public_id Sample.two_users Hwf).
Defined.

(** C7, as the specification has it, fails where the store is missing: the
    record that [events] returns then has no [id]. *)
Lemma events_sample_without_id :
  exists r : doc, fst (events None) = [Some r] /\ r !! "id" = None.
Proof. exists default_event. split; reflexivity. Qed.

(** C8, as the code has it. A record that [login] or [signup] creates has no
    [is_active] field, neither as stored nor as returned: no endpoint writes
    the default of the [User] schema. *)
Theorem created_records_lack_is_active (d : database) :
  wf_db d ->
  (forall p, find_one (user d) "email" (VStr (LoginPayload.email p)) = None ->
     exists (r u : doc) c',
       login (Some d) p
       = (Ok {| token := LoginPayload.email p; user_ := Some u |},
          Some {| user := c'; event := event d |})
       /\ docs c' = (docs (user d) ++ [r])%list
       /\ r !! "is_active" = None /\ u !! "is_active" = None)
  /\ (forall p, find_one (user d) "email" (VStr (SignupPayload.email p)) = None ->
        exists (r u : doc) c',
          signup (Some d) p
          = (Ok {| token := SignupPayload.email p; user_ := Some u |},
             Some {| user := c'; event := event d |})
          /\ docs c' = (docs (user d) ++ [r])%list
          /\ r !! "is_active" = None /\ u !! "is_active" = None).
Proof.
  intros Hwf. split; intros p Hfind.
  - rewrite (login_new d p Hwf Hfind).
    erewrite to_public_with_id by apply lookup_insert_eq.
    do 3 eexists. split; [reflexivity|]. split; [reflexivity|].
    split; [|rewrite lookup_insert_ne, lookup_delete_ne by done];
      by rewrite !lookup_insert_ne, lookup_singleton_ne.
  - rewrite (signup_new d p Hwf Hfind).
    erewrite to_public_with_id by apply lookup_insert_eq.
    assert (not_none (SignupPayload.model_dump p) !! "is_active" = None) as Hna.
    { apply not_none_absent. simpl. apply (bool_decide_unpack _).
      vm_compute. reflexivity. }
    do 3 eexists. split; [reflexivity|]. split; [reflexivity|].
    split; [|rewrite lookup_insert_ne, lookup_delete_ne by done];
      by rewrite lookup_insert_ne.
Qed.

Lemma created_records_lack_is_active_witness :
  wf_db Sample.empty_db
  /\ exists (r u : doc) c',
       signup (Some Sample.empty_db) Sample.carol
       = (Ok {| token := "carol@x.com"; user_ := Some u |},
          Some {| user := c'; event := event Sample.empty_db |})
       /\ docs c' = [r]
       /\ r !! "is_active" = None /\ u !! "is_active" = None.
Proof.
  assert (wf_db Sample.empty_db) as Hwf.
  { apply (bool_decide_unpack _). vm_compute. reflexivity. }
  split; [exact Hwf|].
  destruct (created_records_lack_is_active Sample.empty_db Hwf) as [_ Hs].
  apply (Hs Sample.carol). vm_compute. reflexivity.
Defined.

(** C8, as the specification has it, fails: the record that a first login
    creates has no [is_active] field, so the field is not [true]. *)
Lemma provisioned_record_not_active :
  exists r : doc,
    snd (login (Some Sample.empty_db) Sample.new_login)
    = Some {| user := {| docs := [r]; next_oid := 1 |};
              event := event Sample.empty_db |}
    /\ r !! "email" = Some (VStr "new@x.com")
    /\ r !! "is_active" <> Some (VBool true).
Proof.
  eexists. split; [vm_compute; reflexivity|].
  split; [vm_compute; reflexivity|]. vm_compute. discriminate.
Qed.

(** C9. After a signup under an email that no record carried, a login under
    that email returns the record of the signup: the same projection, and so
    the same [id]. *)
Theorem signup_then_login_same_id (d : database) (payload : SignupPayload.t) :
  wf_db d ->
  find_one (user d) "email" (VStr (SignupPayload.email payload)) = None ->
  exists (u : doc) s d',
    signup (Some d) payload
    = (Ok {| token := SignupPayload.email payload; user_ := Some u |}, Some d')
    /\ login (Some d') {| LoginPayload.email := SignupPayload.email payload |}
       = (Ok {| token := SignupPayload.email payload; user_ := Some u |}, Some d')
    /\ u !! "id" = Some (VStr s).
Proof.
  intros Hwf Hfind.
  set (r := <["_id" := VOid (next_oid (user d))]>
              (not_none (SignupPayload.model_dump payload))).
  set (d' := {| user := {| docs := (docs (user d) ++ [r])%list;
                           next_oid := N.succ (next_oid (user d)) |};
                event := event d |}).
  assert (to_public (Some r)
          = Some (<["id" := VStr (str (VOid (next_oid (user d))))]> (delete "_id" r)))
    as Hpub by (apply to_public_with_id, lookup_insert_eq).
  eexists _, (str (VOid (next_oid (user d)))), d'. split; [|split].
  - rewrite (signup_new d payload Hwf Hfind). fold r d'. by rewrite Hpub.
  - assert (find_one (user d') "email" (VStr (SignupPayload.email payload)) = Some r)
      as Hr.
    { apply find_one_first; [by apply find_one_None|].
      unfold r. rewrite lookup_insert_ne by done. apply signup_data_email. }
    rewrite (login_found d' {| LoginPayload.email := SignupPayload.email payload |} r Hr).
    cbn [LoginPayload.email]. by rewrite Hpub.
  - apply lookup_insert_eq.
Qed.

Lemma signup_then_login_same_id_witness :
  wf_db Sample.two_users
  /\ find_one (user Sample.two_users) "email" (VStr "carol@x.com") = None
  /\ exists (u : doc) s d',
       signup (Some Sample.two_users) Sample.carol
       = (Ok {| token := "carol@x.com"; user_ := Some u |}, Some d')
       /\ login (Some d') {| LoginPayload.email := "carol@x.com" |}
          = (Ok {| token := "carol@x.com"; user_ := Some u |}, Some d')
       /\ u !! "id" = Some (VStr s).
Proof.
  assert (wf_db Sample.two_users) as Hwf.
  { apply (bool_decide_unpack _). vm_compute. reflexivity. }
  split; [exact Hwf|]. split; [vm_compute; reflexivity|].
  apply (signup_then_login_same_id Sample.two_users Sample.carol Hwf).
  vm_compute. reflexivity.
Defined.

(** ** The query of [directory] *)

Lemma filter_by_field c k v :
  find c [(k, MEq v)]
  = List.filter (fun x : doc => bool_decide (x !! k = Some v)) (docs c).
Proof.
  unfold find. apply filter_ext. intros x. unfold doc_matches; simpl.
  apply andb_true_r.
Qed.

(** C10. An empty [company] is no filter at all: the call answers what the
    call without [company] answers, every record subject to the batch year
    only; a [batch_year] of zero is a filter like any other year. *)
Theorem directory_empty_company (lim : Z) :
  (forall db batch_year,
     directory db (Some EmptyString) batch_year lim = directory db None batch_year lim)
  /\ (forall d,
        directory (Some d) (Some EmptyString) None lim
        = Some (Ok (map (fun x => to_public (Some x)) (limit lim (docs (user d))))))
  /\ (forall d y,
        directory (Some d) (Some EmptyString) (Some y) lim
        = Some (Ok (map (fun x => to_public (Some x))
             (limit lim (List.filter
                (fun x : doc => bool_decide (x !! "batch_year" = Some (VInt y)))
                (docs (user d)))))))
  /\ (forall d,
        directory (Some d) None (Some 0%Z) lim
        = Some (Ok (map (fun x => to_public (Some x))
             (limit lim (List.filter
                (fun x : doc => bool_decide (x !! "batch_year" = Some (VInt 0)))
                (docs (user d))))))).
Proof.
  split; [reflexivity|]. split; [|split].
  - intros d. unfold directory; simpl. by rewrite find_all.
  - intros d y. unfold directory; simpl. by rewrite filter_by_field.
  - intros d. unfold directory; simpl. by rewrite filter_by_field.
Qed.

(** ** Patterns without metacharacters *)

Lemma parse_plain p : no_metachar p = true -> Regex.parse p = Some (lits p).
Proof.
  induction p as [|c p IH]; [reflexivity|].
  cbn [no_metachar]. intros H. apply andb_true_iff in H as [Hc Hp].
  apply negb_true_iff in Hc. pose proof Hc as Hm.
  unfold Regex.metachar, Regex.metachars in Hc. cbn [Regex.mem_char] in Hc.
  repeat (apply orb_false_iff in Hc as [? Hc]).
  cbn [Regex.parse lits]. rewrite (IH Hp), Hm.
  repeat match goal with H : Ascii.eqb c _ = false |- _ => rewrite H; clear H end.
  reflexivity.
Qed.

(** ** A search for literal characters is a substring test *)

Lemma char_eq_lower a b :
  Regex.char_eq true a b = true <-> Regex.lower a = Regex.lower b.
Proof. unfold Regex.char_eq. apply Ascii.eqb_eq. Qed.

Lemma match_here_lits p b s :
  Regex.match_here true (lits p) b s = true
  <-> exists mid post, s = mid ++ post /\ Regex.lower_str mid = Regex.lower_str p.
Proof.
  revert b s. induction p as [|c p IH]; intros b s.
  - split; [|done]. intros _. by exists EmptyString, s.
  - cbn [lits Regex.match_here]. destruct s as [|x s].
    + split; [discriminate|]. intros (mid & post & Hs & Hl).
      destruct mid; [discriminate Hl|discriminate Hs].
    + rewrite andb_true_iff, char_eq_lower, IH. split.
      * intros [Hc (mid & post & -> & Hl)].
        exists (String x mid), post. split; [reflexivity|].
        cbn [Regex.lower_str]. by rewrite Hl, Hc.
      * intros (mid & post & Hs & Hl).
        destruct mid as [|m mid]; [discriminate Hl|].
        cbn [Regex.lower_str] in Hl. injection Hl as Hc Hl.
        injection Hs as -> ->. split; [done|]. by exists mid, post.
Qed.

Lemma search_from_lits p b s :
  Regex.search_from true (lits p) b s = true <-> ci_substring p s.
Proof.
  revert b. induction s as [|x s IH]; intros b; cbn [Regex.search_from].
  - rewrite orb_false_r, match_here_lits. split.
    + intros (mid & post & Hs & Hl). by exists EmptyString, mid, post.
    + intros (pre & mid & post & Hs & Hl).
      destruct pre; [|discriminate Hs]. by exists mid, post.
  - rewrite orb_true_iff, match_here_lits, IH. split.
    + intros [(mid & post & Hs & Hl)|(pre & mid & post & Hs & Hl)].
      * by exists EmptyString, mid, post.
      * exists (String x pre), mid, post. split; [|done]. by rewrite Hs.
    + intros (pre & mid & post & Hs & Hl). destruct pre as [|y pre].
      * left. by exists mid, post.
      * right. injection Hs as -> ->. by exists pre, mid, post.
Qed.

Lemma regex_holds_plain c (x : doc) :
  matcher_holds (MRegex (lits c) true) (x !! "current_company") = true
  <-> exists s, x !! "current_company" = Some (VStr s) /\ ci_substring c s.
Proof.
  unfold matcher_holds, Regex.search.
  destruct (x !! "current_company") as [[s| | |]|].
  - rewrite search_from_lits. split; [intros H; by exists s|].
    by intros (s' & [= <-] & H).
  - split; [discriminate|]. by intros (s' & [= ] & _).
  - split; [discriminate|]. by intros (s' & [= ] & _).
  - split; [discriminate|]. by intros (s' & [= ] & _).
  - split; [discriminate|]. by intros (s' & [= ] & _).
Qed.

Lemma fragment_engine_literal : literal_engine fragment_engine.
Proof.
  intros c Hc _. exists (Regex.search true (lits c)). split; [|done].
  unfold fragment_engine. by rewrite (parse_plain c Hc).
Qed.

Lemma directory_with_fragment db company batch_year lim :
  directory_with fragment_engine db company batch_year lim
  = directory db company batch_year lim.
Proof.
  unfold directory_with, directory. destruct db as [d|]; [|done].
  unfold find_with, find.
  assert (forall q, match compile q with
                    | Some cq => exists t, query_test fragment_engine q = Some t
                                           /\ forall x, t x = doc_matches cq x
                    | None => query_test fragment_engine q = None
                    end) as H.
  { induction q as [|[k c] q IH]; [by exists (fun _ => true)|].
    simpl. destruct c as [v|p o]; simpl.
    - destruct (compile q) as [cq|]; simpl.
      + destruct IH as (t & -> & Ht). simpl.
        eexists. split; [reflexivity|]. intros x. cbn beta.
        rewrite Ht. reflexivity.
      + rewrite IH. done.
    - assert (fragment_engine p o
              = its ← Regex.parse p; Some (Regex.search (Regex.mem_char "i" o) its))
        as -> by done.
      destruct (Regex.parse p) as [its|]; [|done]. simpl.
      destruct (compile q) as [cq|]; simpl.
      + destruct IH as (t & -> & Ht). simpl.
        eexists. split; [reflexivity|]. intros x. cbn beta.
        rewrite Ht. reflexivity.
      + rewrite IH. done. }
  specialize (H (directory_filt company batch_year)).
  destruct (compile (directory_filt company batch_year)) as [cq|].
  - destruct H as (t & -> & Ht). cbn [mbind option_bind].
    do 4 f_equal. by apply filter_ext.
  - by rewrite H.
Qed.

Lemma search_plain_substring c s :
  Regex.search true (lits c) s = true <-> ci_substring c s.
Proof. apply search_from_lits. Qed.

(** C4, as the code has it. [directory] hands a present, non-empty [company]
    with the option [i] to the regular-expression engine of the store: a
    record matches it when its [current_company] is a string that the
    engine's test accepts, and the call answers nothing when the engine
    refuses the pattern. A [batch_year] matches by equality, and a record is
    returned only if it matches both. For an engine that reads printable
    ASCII patterns without metacharacters as literal text in either case,
    such a [company] matches a printable ASCII [current_company] if and only
    if it is a case-insensitive substring of it. *)
Theorem directory_search (engine : regex_engine) (d : database)
    (company : option string) (batch_year : option Z) (lim : Z) :
  literal_engine engine ->
  (company = None \/ company = Some EmptyString ->
     exists keep : doc -> bool,
       directory_with engine (Some d) company batch_year lim
       = Some (Ok (map (fun x => to_public (Some x))
                       (limit lim (List.filter keep (docs (user d))))))
       /\ forall x : doc,
            keep x = true
            <-> (forall y, batch_year = Some y -> x !! "batch_year" = Some (VInt y)))
  /\ (forall c, company = Some c -> c <> EmptyString ->
        (engine c "i" = None
         /\ directory_with engine (Some d) company batch_year lim = None)
        \/ exists (m : string -> bool) (keep : doc -> bool),
             engine c "i" = Some m
             /\ directory_with engine (Some d) company batch_year lim
                = Some (Ok (map (fun x => to_public (Some x))
                                (limit lim (List.filter keep (docs (user d))))))
             /\ (forall x : doc,
                   keep x = true
                   <-> (exists s, x !! "current_company" = Some (VStr s)
                                  /\ m s = true)
                       /\ (forall y, batch_year = Some y ->
                             x !! "batch_year" = Some (VInt y)))
             /\ (no_metachar c = true -> ascii_text c = true ->
                 forall s, ascii_text s = true ->
                   (m s = true <-> ci_substring c s))).
Proof.
  intros Hlit.
  assert (forall (x : doc) y,
            bool_decide (x !! "batch_year" = Some (VInt y)) && true = true
            <-> (forall y', Some y = Some y' -> x !! "batch_year" = Some (VInt y')))
    as Hby.
  { intros x y. rewrite andb_true_r, bool_decide_eq_true. split.
    - by intros H y' [= <-].
    - intros H. by apply H. }
  split.
  - intros Hc. unfold directory_with, find_with.
    assert (directory_filt company batch_year = directory_filt None batch_year)
      as -> by (by destruct Hc as [-> | ->]).
    destruct batch_year as [y|]; simpl.
    + eexists. split; [reflexivity|]. intros x. apply Hby.
    + eexists. split; [reflexivity|]. intros x. cbn beta.
      split; [discriminate|done].
  - intros c -> Hne. apply String.eqb_neq in Hne.
    unfold directory_with, find_with, directory_filt. rewrite Hne.
    destruct (engine c "i") as [m|] eqn:Em; [right|].
    2: { left. split; [done|].
         destruct batch_year; cbn [app query_test cond_test]; by rewrite Em. }
    assert (forall x : doc,
              match x !! "current_company" with
              | Some (VStr s) => m s
              | _ => false
              end = true
              <-> exists s, x !! "current_company" = Some (VStr s) /\ m s = true)
      as Hcc.
    { intros x. destruct (x !! "current_company") as [[s| | |]|].
      - split; [intros H; by exists s|by intros (s' & [= <-] & H)].
      - split; [discriminate|by intros (s' & [= ] & _)].
      - split; [discriminate|by intros (s' & [= ] & _)].
      - split; [discriminate|by intros (s' & [= ] & _)].
      - split; [discriminate|by intros (s' & [= ] & _)]. }
    exists m. destruct batch_year as [y|]; cbn [app query_test cond_test];
      rewrite Em; simpl.
    + eexists. split; [done|]. split; [reflexivity|]. split.
      * intros x. cbn beta. by rewrite andb_true_iff, Hcc, Hby.
      * intros Hc Ha s Hs.
        destruct (Hlit c Hc Ha) as (m' & Em' & Hm'). rewrite Em in Em'.
        injection Em' as <-. rewrite (Hm' s Hs). apply search_plain_substring.
    + eexists. split; [done|]. split; [reflexivity|]. split.
      * intros x. cbn beta. rewrite andb_true_r, Hcc.
        split; [intros H; split; [done|discriminate]|by intros [H _]].
      * intros Hc Ha s Hs.
        destruct (Hlit c Hc Ha) as (m' & Em' & Hm'). rewrite Em in Em'.
        injection Em' as <-. rewrite (Hm' s Hs). apply search_plain_substring.
Qed.

Lemma directory_search_witness :
  literal_engine fragment_engine
  /\ exists (m : string -> bool) (keep : doc -> bool),
       directory (Some Sample.two_users) (Some "acme") (Some 2020%Z) 50
       = Some (Ok (map (fun x => to_public (Some x))
                       (limit 50 (List.filter keep (docs (user Sample.two_users))))))
       /\ keep Sample.ann = true /\ keep Sample.bob = false.
Proof.
  split; [exact fragment_engine_literal|].
  destruct (directory_search fragment_engine Sample.two_users (Some "acme")
              (Some 2020%Z) 50 fragment_engine_literal) as [_ H].
  destruct (H "acme" eq_refl ltac:(discriminate))
    as [[Hnone _]|(m & keep & _ & Hd & Hkeep & Hsub)]; [discriminate Hnone|].
  rewrite directory_with_fragment in Hd.
  exists m, keep. split; [exact Hd|]. split.
  - apply Hkeep. split.
    + exists "ACME Corp". split; [reflexivity|].
      apply (Hsub eq_refl eq_refl "ACME Corp" eq_refl).
      by exists EmptyString, "ACME", " Corp".
    + intros y [= <-]. reflexivity.
  - apply not_true_is_false. intros Hb. apply Hkeep in Hb as [_ Hb].
    specialize (Hb 2020%Z eq_refl). discriminate Hb.
Defined.

(** C4, as the specification has it, fails on a filter with a
    metacharacter: the filter [.] returns both records, though neither
    [current_company] has a full stop in it, and the filter [^acme] returns
    a record although [^acme] is no substring of its [current_company]. *)
Lemma directory_company_is_a_pattern :
  directory (Some Sample.two_users) (Some ".") None 50
  = Some (Ok [to_public (Some Sample.ann); to_public (Some Sample.bob)])
  /\ directory (Some Sample.two_users) (Some "^acme") None 50
     = Some (Ok [to_public (Some Sample.ann)])
  /\ Sample.ann !! "current_company" = Some (VStr "ACME Corp")
  /\ ~ ci_substring "." "ACME Corp"
  /\ ~ ci_substring "^acme" "ACME Corp".
Proof.
  split; [vm_compute; reflexivity|]. split; [vm_compute; reflexivity|].
  split; [vm_compute; reflexivity|].
  split; intros H.
  - apply (search_from_lits "." true "ACME Corp") in H.
    vm_compute in H. discriminate H.
  - apply (search_from_lits "^acme" true "ACME Corp") in H.
    vm_compute in H. discriminate H.
Qed.

(** * The store stays well formed *)

Lemma oid_below_mono n m (x : doc) : (n <= m)%N -> oid_below n x -> oid_below m x.
Proof.
  unfold oid_below. intros Hnm. destruct (x !! "_id") as [[]|]; try done. lia.
Qed.

Lemma oid_below_same_id n (x y : doc) :
  x !! "_id" = y !! "_id" -> oid_below n x -> oid_below n y.
Proof. unfold oid_below. by intros ->. Qed.

Lemma insert_one_wf c (d0 : doc) :
  wf_collection c ->
  wf_collection {| docs := (docs c ++ [<["_id" := VOid (next_oid c)]> d0])%list;
                   next_oid := N.succ (next_oid c) |}.
Proof.
  intros Hwf. pose proof (wf_fresh c Hwf) as Hfresh. destruct Hwf as [Hb Hnd].
  split; simpl.
  - apply Forall_app. split.
    + eapply Forall_impl; [exact Hb|]. intros x. apply oid_below_mono. lia.
    + repeat constructor. unfold oid_below. rewrite lookup_insert_eq. lia.
  - rewrite fmap_app. apply NoDup_app. split; [done|]. split.
    + intros o Ho Ho'. apply list_elem_of_fmap in Ho as (x & -> & Hx).
      apply list_elem_of_singleton in Ho'. rewrite lookup_insert_eq in Ho'.
      rewrite Forall_forall in Hfresh. by apply (Hfresh x Hx).
    + apply NoDup_singleton.
Qed.

Lemma replace_wf c l1 (e e' : doc) l2 :
  wf_collection c -> docs c = (l1 ++ e :: l2)%list -> e' !! "_id" = e !! "_id" ->
  wf_collection {| docs := (l1 ++ e' :: l2)%list; next_oid := next_oid c |}.
Proof.
  intros [Hb Hnd] Hd He. rewrite Hd in Hb, Hnd. split; simpl.
  - apply Forall_app in Hb as [H1 H2]. apply Forall_cons in H2 as [H2 H3].
    apply Forall_app. split; [done|]. constructor; [|done].
    eapply oid_below_same_id; [symmetry; exact He|done].
  - by rewrite fmap_app, fmap_cons, He, <- fmap_cons, <- fmap_app.
Qed.

(** [wf_db] is an invariant of the endpoints that write. *)

Lemma signup_preserves_wf d p d' :
  wf_db d -> snd (signup (Some d) p) = Some d' -> wf_db d'.
Proof.
  intros Hwf H. pose proof Hwf as [Hu He].
  destruct (find_one (user d) "email" (VStr (SignupPayload.email p))) as [e|] eqn:Hfind.
  - destruct (signup_existing d p e Hwf Hfind) as (l1 & l2 & v & Hd & Hv & Hv' & Hs).
    rewrite Hs in H. injection H as <-. split; [|done].
    apply (replace_wf _ _ e _ _ Hu Hd). by rewrite Hv, Hv'.
  - rewrite (signup_new d p Hwf Hfind) in H. injection H as <-.
    split; [|done]. by apply insert_one_wf.
Qed.

Lemma login_preserves_wf d p d' :
  wf_db d -> snd (login (Some d) p) = Some d' -> wf_db d'.
Proof.
  intros Hwf H. pose proof Hwf as [Hu He].
  destruct (find_one (user d) "email" (VStr (LoginPayload.email p))) as [e|] eqn:Hfind.
  - rewrite (login_found d p e Hfind) in H. by injection H as <-.
  - rewrite (login_new d p Hwf Hfind) in H. injection H as <-.
    split; [|done]. by apply insert_one_wf.
Qed.

Lemma update_profile_preserves_wf d email p d' :
  wf_db d -> snd (update_profile (Some d) email p) = Some d' -> wf_db d'.
Proof.
  intros Hwf H. pose proof Hwf as [Hu He].
  destruct (decide (not_none (ProfileUpdatePayload.model_dump p) = ∅)) as [E|Hne].
  { rewrite update_profile_no_fields in H by done. by injection H as <-. }
  destruct (find_one (user d) "email" (VStr email)) as [e|] eqn:Hfind.
  - destruct (update_profile_found d email p e Hne Hfind) as (l1 & l2 & Hd & Hs).
    rewrite Hs in H. injection H as <-. split; [|done].
    apply (replace_wf _ _ e _ _ Hu Hd).
    apply set_fields_absent, profile_updates_no_id.
  - rewrite update_profile_not_found in H by done. by injection H as <-.
Qed.

Lemma events_preserves_wf d d' :
  wf_db d -> snd (events (Some d)) = Some d' -> wf_db d'.
Proof.
  intros Hwf H. pose proof Hwf as [Hu He].
  destruct (docs (event d)) as [|x l] eqn:Hd.
  - rewrite events_seed in H by done. injection H as <-. split; [done|].
    pose proof (insert_one_wf _ default_event He) as Hi. by rewrite Hd in Hi.
  - rewrite events_existing in H by (by rewrite Hd). by injection H as <-.
Qed.

(** * Further properties of the endpoints *)

(** ** What a call leaves behind *)

Lemma set_fields_contained (upd e : doc) :
  (forall k x, upd !! k = Some x -> e !! k = Some x) -> set_fields upd e = e.
Proof.
  intros H. apply map_eq. intros k.
  destruct (upd !! k) as [x|] eqn:E.
  - rewrite (set_fields_present _ _ _ _ E). symmetry. by apply H.
  - by apply set_fields_absent.
Qed.

Lemma to_public_field (d : doc) v k :
  d !! "_id" = Some v -> k <> "_id" -> k <> "id" ->
  forall u, to_public (Some d) = Some u -> u !! k = d !! k.
Proof.
  intros Hv H1 H2 u. rewrite (to_public_with_id _ _ Hv). intros [= <-].
  by rewrite lookup_insert_ne, lookup_delete_ne.
Qed.

Lemma to_public_id (d : doc) v :
  d !! "_id" = Some v ->
  forall u, to_public (Some d) = Some u -> u !! "id" = Some (VStr (str v)).
Proof.
  intros Hv u. rewrite (to_public_with_id _ _ Hv). intros [= <-].
  apply lookup_insert_eq.
Qed.

(** After [signup], the record under the email is the one returned, and it
    holds every non-null field of the payload. *)
Lemma signup_result d p :
  wf_db d ->
  exists (e1 : doc) d1 v,
    signup (Some d) p
    = (Ok {| token := SignupPayload.email p; user_ := to_public (Some e1) |}, Some d1)
    /\ find_one (user d1) "email" (VStr (SignupPayload.email p)) = Some e1
    /\ e1 !! "_id" = Some v
    /\ wf_db d1
    /\ (forall k x, not_none (SignupPayload.model_dump p) !! k = Some x ->
          e1 !! k = Some x).
Proof.
  intros Hwf.
  destruct (find_one (user d) "email" (VStr (SignupPayload.email p))) as [e|] eqn:Hfind.
  - destruct (signup_existing d p e Hwf Hfind) as (l1 & l2 & v & Hd & Hv & Hv' & Hs).
    destruct (find_one_Some _ _ _ _ Hfind) as (l1' & l2' & Hd' & He & Hl1').
    eexists _, _, v. split; [exact Hs|]. split; [|split; [exact Hv'|split]].
    + assert (l1 = l1' /\ l2 = l2') as [-> ->].
      { pose proof (wf_unique _ _ _ _ _ (proj1 Hwf) Hd Hv) as Hu1.
        pose proof (wf_unique _ _ _ _ _ (proj1 Hwf) Hd' Hv) as Hu2.
        rewrite Hd in Hd'. clear -Hd' Hu1 Hu2 Hv.
        revert l1' Hd' Hu2. induction l1 as [|a l1 IH]; intros [|b l1'] Hd' Hu2.
        - by injection Hd' as ->.
        - injection Hd' as <- _. apply Forall_cons in Hu2 as [Hb _]. done.
        - injection Hd' as -> _. apply Forall_cons in Hu1 as [Ha _]. done.
        - injection Hd' as -> Hd'. apply Forall_cons in Hu1 as [_ Hu1].
          apply Forall_cons in Hu2 as [_ Hu2].
          destruct (IH Hu1 l1' Hd' Hu2) as [-> ->]. done. }
      apply find_one_first; [done|].
      apply set_fields_present, signup_data_email.
    + apply (signup_preserves_wf d p); [done|]. by rewrite Hs.
    + intros k x. apply set_fields_present.
  - pose proof (signup_new d p Hwf Hfind) as Hs.
    eexists _, _, (VOid (next_oid (user d))). split; [exact Hs|].
    split; [|split; [apply lookup_insert_eq|split]].
    + apply find_one_first; [by apply find_one_None|].
      rewrite lookup_insert_ne by done. apply signup_data_email.
    + apply (signup_preserves_wf d p); [done|]. by rewrite Hs.
    + intros k x Hk. rewrite lookup_insert_ne; [done|].
      intros <-. by rewrite signup_data_no_id in Hk.
Qed.

Lemma login_result d p :
  wf_db d ->
  exists (e1 : doc) d1 v,
    login (Some d) p
    = (Ok {| token := LoginPayload.email p; user_ := to_public (Some e1) |}, Some d1)
    /\ find_one (user d1) "email" (VStr (LoginPayload.email p)) = Some e1
    /\ e1 !! "_id" = Some v
    /\ wf_db d1.
Proof.
  intros Hwf.
  destruct (find_one (user d) "email" (VStr (LoginPayload.email p))) as [e|] eqn:Hfind.
  - destruct (wf_has_id _ e (proj1 Hwf) (find_one_elem _ _ _ _ Hfind)) as [v Hv].
    eexists e, d, v. split; [by apply login_found|]. done.
  - pose proof (login_new d p Hwf Hfind) as Hs.
    eexists _, _, (VOid (next_oid (user d))). split; [exact Hs|].
    split; [|split; [apply lookup_insert_eq|]].
    + apply find_one_first; [by apply find_one_None|].
      by rewrite !lookup_insert_ne, lookup_singleton_eq.
    + apply (login_preserves_wf d p); [done|]. by rewrite Hs.
Qed.

Lemma get_profile_found d email e :
  find_one (user d) "email" (VStr email) = Some e ->
  get_profile (Some d) email = (Ok (to_public (Some e)), Some d).
Proof.
  intros Hfind. unfold get_profile. rewrite Hfind.
  by rewrite (truthy_found _ _ _ _ Hfind).
Qed.

Lemma find_one_absent c k v :
  Forall (fun y : doc => y !! k <> Some v) (docs c) -> find_one c k v = None.
Proof.
  intros H. destruct (find_one c k v) as [e|] eqn:E; [|done].
  apply find_one_Some in E as (l1 & l2 & Hd & He & _).
  rewrite Hd in H. apply Forall_app in H as [_ H].
  apply Forall_cons in H as [H _]. done.
Qed.

(** X1. [get_profile] leaves the store as it is; it ends in the 404 error
    exactly when no stored record carries the email, and otherwise returns
    the projection of the first record that does. *)
Theorem get_profile_cases (d : database) (email : string) :
  snd (get_profile (Some d) email) = Some d
  /\ (fst (get_profile (Some d) email) = HTTPException 404 "User not found"
      <-> Forall (fun x : doc => x !! "email" <> Some (VStr email)) (docs (user d)))
  /\ (forall e, find_one (user d) "email" (VStr email) = Some e ->
        fst (get_profile (Some d) email) = Ok (to_public (Some e))).
Proof.
  destruct (find_one (user d) "email" (VStr email)) as [e|] eqn:Hfind.
  - rewrite (get_profile_found _ _ _ Hfind). split; [done|]. split.
    + split; [discriminate|]. intros H. apply find_one_absent in H. congruence.
    + by intros e' [= <-].
  - split; [|split].
    + unfold get_profile. by rewrite Hfind.
    + split; [intros _; by apply find_one_None|].
      intros _. unfold get_profile. by rewrite Hfind.
    + discriminate.
Qed.

Lemma get_profile_cases_witness :
  fst (get_profile (Some Sample.two_users) "bob@x.com")
  = Ok (to_public (Some Sample.bob))
  /\ fst (get_profile (Some Sample.two_users) "zed@x.com")
     = HTTPException 404 "User not found".
Proof.
  split.
  - apply (get_profile_cases Sample.two_users "bob@x.com"). reflexivity.
  - apply (get_profile_cases Sample.two_users "zed@x.com").
    apply (bool_decide_unpack _). vm_compute. reflexivity.
Defined.

(** X2. When [signup] answers on a well-formed store, the token is the
    email of the payload, and the user returned is a public record that
    carries the name, the email and the status of the payload, whatever was
    stored before. *)
Theorem signup_answer (d d' : database) (p : SignupPayload.t)
    (r : auth_response) :
  wf_db d ->
  signup (Some d) p = (Ok r, Some d') ->
  token r = SignupPayload.email p
  /\ exists u : doc,
       user_ r = Some u
       /\ public_record u
       /\ u !! "name" = Some (VStr (SignupPayload.name p))
       /\ u !! "email" = Some (VStr (SignupPayload.email p))
       /\ u !! "status" = Some (VStr (SignupPayload.status p)).
Proof.
  intros Hwf Hr.
  destruct (signup_result d p Hwf) as (e1 & d1 & v & Hs & _ & Hv & _ & Hdata).
  rewrite Hs in Hr. injection Hr as <- <-. split; [reflexivity|].
  destruct (to_public_is_public e1 v Hv) as (u & Hu & Hpub).
  exists u. cbn [user_]. split; [done|]. split; [done|].
  repeat split; rewrite (to_public_field e1 v _ Hv) by done;
    apply Hdata, signup_data_lookup; simpl; set_solver.
Qed.

Lemma signup_answer_witness :
  wf_db Sample.two_users
  /\ exists r d',
       signup (Some Sample.two_users) Sample.ann_again = (Ok r, Some d')
       /\ token r = "ann@x.com"
       /\ exists u : doc,
            user_ r = Some u
            /\ public_record u
            /\ u !! "name" = Some (VStr "Ann B.")
            /\ u !! "email" = Some (VStr "ann@x.com")
            /\ u !! "status" = Some (VStr "alumnus").
Proof.
  assert (wf_db Sample.two_users) as Hwf.
  { apply (bool_decide_unpack _). vm_compute. reflexivity. }
  split; [exact Hwf|].
  destruct (signup_result Sample.two_users Sample.ann_again Hwf)
    as (e1 & d1 & v & Hs & _).
  eexists _, d1. split; [exact Hs|].
  apply (signup_answer Sample.two_users d1 Sample.ann_again _ Hwf Hs).
Defined.

(** X3. [signup] is idempotent: a second call with the same payload returns
    what the first returned and leaves the store as the first left it. *)
Theorem signup_idempotent (d : database) (p : SignupPayload.t) :
  wf_db d ->
  exists r d',
    signup (Some d) p = (Ok r, Some d')
    /\ signup (Some d') p = (Ok r, Some d').
Proof.
  intros Hwf.
  destruct (signup_result d p Hwf) as (e1 & d1 & v & Hs & Hfind & Hv & Hwf1 & Hdata).
  eexists _, d1. split; [exact Hs|].
  destruct (signup_existing d1 p e1 Hwf1 Hfind) as (l1 & l2 & v' & Hd & _ & _ & Hs').
  rewrite Hs', (set_fields_contained _ _ Hdata), <- Hd.
  f_equal. f_equal. destruct d1 as [[] ?]. reflexivity.
Qed.

Lemma signup_idempotent_witness :
  wf_db Sample.empty_db
  /\ exists r d',
       signup (Some Sample.empty_db) Sample.carol = (Ok r, Some d')
       /\ signup (Some d') Sample.carol = (Ok r, Some d').
Proof.
  assert (wf_db Sample.empty_db) as Hwf.
  { apply (bool_decide_unpack _). vm_compute. reflexivity. }
  split; [exact Hwf|].
  apply (signup_idempotent Sample.empty_db Sample.carol Hwf).
Defined.

(** X4. With a well-formed store, [login] always succeeds with the email as
    token and a user that carries that email, and it is idempotent: a
    second login returns the same user and stores nothing more. *)
Theorem login_idempotent (d : database) (p : LoginPayload.t) :
  wf_db d ->
  exists (u : doc) d',
    login (Some d) p
    = (Ok {| token := LoginPayload.email p; user_ := Some u |}, Some d')
    /\ public_record u
    /\ u !! "email" = Some (VStr (LoginPayload.email p))
    /\ login (Some d') p
       = (Ok {| token := LoginPayload.email p; user_ := Some u |}, Some d').
Proof.
  intros Hwf.
  destruct (login_result d p Hwf) as (e1 & d1 & v & Hs & Hfind & Hv & Hwf1).
  destruct (to_public_is_public e1 v Hv) as (u & Hu & Hpub).
  exists u, d1. rewrite Hs, Hu. split; [done|]. split; [done|]. split.
  - rewrite (to_public_field e1 v _ Hv) by done.
    by apply find_one_Some in Hfind as (_ & _ & _ & He & _).
  - by rewrite (login_found d1 p e1 Hfind), Hu.
Qed.

Lemma login_idempotent_witness :
  wf_db Sample.two_users
  /\ exists (u : doc) d',
       login (Some Sample.two_users) Sample.new_login
       = (Ok {| token := "new@x.com"; user_ := Some u |}, Some d')
       /\ public_record u
       /\ u !! "email" = Some (VStr "new@x.com")
       /\ login (Some d') Sample.new_login
          = (Ok {| token := "new@x.com"; user_ := Some u |}, Some d').
Proof.
  assert (wf_db Sample.two_users) as Hwf.
  { apply (bool_decide_unpack _). vm_compute. reflexivity. }
  split; [exact Hwf|].
  apply (login_idempotent Sample.two_users Sample.new_login Hwf).
Defined.

(** X5. What [signup] returns is what [get_profile] then reads under the
    email of the payload. *)
Theorem signup_then_get_profile (d : database) (p : SignupPayload.t) :
  wf_db d ->
  exists o d',
    signup (Some d) p
    = (Ok {| token := SignupPayload.email p; user_ := o |}, Some d')
    /\ get_profile (Some d') (SignupPayload.email p) = (Ok o, Some d').
Proof.
  intros Hwf.
  destruct (signup_result d p Hwf) as (e1 & d1 & v & Hs & Hfind & _).
  eexists _, d1. split; [exact Hs|]. by apply get_profile_found.
Qed.

Lemma signup_then_get_profile_witness :
  wf_db Sample.two_users
  /\ exists o d',
       signup (Some Sample.two_users) Sample.carol
       = (Ok {| token := "carol@x.com"; user_ := o |}, Some d')
       /\ get_profile (Some d') "carol@x.com" = (Ok o, Some d').
Proof.
  assert (wf_db Sample.two_users) as Hwf.
  { apply (bool_decide_unpack _). vm_compute. reflexivity. }
  split; [exact Hwf|].
  apply (signup_then_get_profile Sample.two_users Sample.carol Hwf).
Defined.

(** X6. A signup after a login under the same email updates the record of
    the login: the user keeps its [id], and no record is added. *)
Theorem login_then_signup_keeps_id (d : database) (p : LoginPayload.t)
    (sp : SignupPayload.t) :
  wf_db d ->
  SignupPayload.email sp = LoginPayload.email p ->
  exists (u1 u2 : doc) d1 d2 s,
    login (Some d) p
    = (Ok {| token := LoginPayload.email p; user_ := Some u1 |}, Some d1)
    /\ signup (Some d1) sp
       = (Ok {| token := SignupPayload.email sp; user_ := Some u2 |}, Some d2)
    /\ u1 !! "id" = Some (VStr s) /\ u2 !! "id" = Some (VStr s)
    /\ length (docs (user d2)) = length (docs (user d1)).
Proof.
  intros Hwf Hemail.
  destruct (login_result d p Hwf) as (e1 & d1 & v & Hl & Hfind & Hv & Hwf1).
  rewrite <- Hemail in Hfind.
  destruct (signup_existing d1 sp e1 Hwf1 Hfind) as (l1 & l2 & v' & Hd & Hv1 & Hv' & Hs).
  assert (v' = v) as -> by congruence.
  destruct (to_public_is_public e1 v Hv) as (u1 & Hu1 & _).
  destruct (to_public_is_public _ v Hv') as (u2 & Hu2 & _).
  exists u1, u2, d1. eexists _, (str v).
  rewrite Hl, Hs, Hu1, Hu2. split; [done|]. split; [done|].
  split; [by apply (to_public_id e1 v Hv)|].
  split; [by apply (to_public_id _ v Hv')|].
  simpl. rewrite Hd, !length_app. reflexivity.
Qed.

Lemma login_then_signup_keeps_id_witness :
  wf_db Sample.empty_db
  /\ exists (u1 u2 : doc) d1 d2 s,
       login (Some Sample.empty_db) {| LoginPayload.email := "carol@x.com" |}
       = (Ok {| token := "carol@x.com"; user_ := Some u1 |}, Some d1)
       /\ signup (Some d1) Sample.carol
          = (Ok {| token := "carol@x.com"; user_ := Some u2 |}, Some d2)
       /\ u1 !! "id" = Some (VStr s) /\ u2 !! "id" = Some (VStr s)
       /\ length (docs (user d2)) = length (docs (user d1)).
Proof.
  assert (wf_db Sample.empty_db) as Hwf.
  { apply (bool_decide_unpack _). vm_compute. reflexivity. }
  split; [exact Hwf|].
  apply (login_then_signup_keeps_id Sample.empty_db
           {| LoginPayload.email := "carol@x.com" |} Sample.carol Hwf).
  reflexivity.
Defined.

(** ** Fields that an update does not name *)

Lemma update_first_keeps {B : Type} (g : doc -> B) (p : doc -> bool)
    (f : doc -> doc) l :
  (forall x, g (f x) = g x) -> g <$> (update_first p f l).1 = g <$> l.
Proof.
  intros Hg. induction l as [|a l IH]; simpl; [done|].
  destruct (p a).
  - simpl. by rewrite Hg.
  - destruct (update_first p f l) as [r n]. simpl in *. by f_equal.
Qed.

Lemma update_one_keeps_field c k v (upd : doc) key :
  upd !! key = None ->
  (fun x : doc => x !! key) <$> docs (update_one c k v upd).1
  = (fun x : doc => x !! key) <$> docs c.
Proof.
  intros Hkey. unfold update_one.
  pose proof (update_first_keeps (fun x : doc => x !! key)
                (doc_matches [(k, MEq v)]) (set_fields upd) (docs c)) as H.
  destruct (update_first _ _ (docs c)) as [l n]. simpl in *.
  apply H. intros x. by apply set_fields_absent.
Qed.

Lemma update_profile_found_read d email p e :
  not_none (ProfileUpdatePayload.model_dump p) <> ∅ ->
  find_one (user d) "email" (VStr email) = Some e ->
  let e' := set_fields (not_none (ProfileUpdatePayload.model_dump p)) e in
  exists d',
    update_profile (Some d) email p = (Ok (to_public (Some e')), Some d')
    /\ find_one (user d') "email" (VStr email) = Some e'
    /\ event d' = event d
    /\ forall key, not_none (ProfileUpdatePayload.model_dump p) !! key = None ->
         (fun x : doc => x !! key) <$> docs (user d')
         = (fun x : doc => x !! key) <$> docs (user d).
Proof.
  intros Hne Hfind e'.
  destruct (find_one_Some _ _ _ _ Hfind) as (l1 & l2 & Hd & He & Hl1).
  pose proof (update_one_first (user d) l1 e l2 "email" (VStr email)
                (not_none (ProfileUpdatePayload.model_dump p)) Hd Hl1 He) as Hup.
  assert (e' !! "email" = Some (VStr email)) as He'.
  { unfold e'. rewrite set_fields_absent; [done|apply profile_updates_no_email]. }
  eexists. split; [|split; [|split]].
  - unfold update_profile. rewrite decide_False by done. rewrite Hup.
    cbn [Z.eqb]. by rewrite (find_one_first l1 e' l2 _ _ _ Hl1 He').
  - exact (find_one_first l1 e' l2 _ _ _ Hl1 He').
  - reflexivity.
  - intros key Hkey. cbn [user].
    pose proof (update_one_keeps_field (user d) "email" (VStr email) _ key Hkey) as H.
    by rewrite Hup in H.
Qed.

(** X7. After a profile update that succeeded, [get_profile] under the same
    email returns the user that the update returned; the update adds and
    removes no record and changes no [_id] and no [email]. *)
Theorem update_then_get_profile (d d' : database) (email : string)
    (p : ProfileUpdatePayload.t) (o : option doc) :
  update_profile (Some d) email p = (Ok o, Some d') ->
  get_profile (Some d') email = (Ok o, Some d')
  /\ (fun x : doc => x !! "_id") <$> docs (user d')
     = (fun x : doc => x !! "_id") <$> docs (user d)
  /\ (fun x : doc => x !! "email") <$> docs (user d')
     = (fun x : doc => x !! "email") <$> docs (user d)
  /\ event d' = event d.
Proof.
  intros H.
  destruct (decide (not_none (ProfileUpdatePayload.model_dump p) = ∅)) as [E|Hne].
  { by rewrite update_profile_no_fields in H. }
  destruct (find_one (user d) "email" (VStr email)) as [e|] eqn:Hfind.
  - destruct (update_profile_found_read d email p e Hne Hfind)
      as (d1 & Hu & Hread & Hev & Hkeep).
    rewrite Hu in H. injection H as <- <-.
    split; [by apply get_profile_found|].
    split; [apply Hkeep, profile_updates_no_id|].
    split; [apply Hkeep, profile_updates_no_email|done].
  - by rewrite update_profile_not_found in H.
Qed.

Lemma update_then_get_profile_witness :
  exists o d',
    update_profile (Some Sample.two_users) "bob@x.com" Sample.bob_update
    = (Ok o, Some d')
    /\ get_profile (Some d') "bob@x.com" = (Ok o, Some d').
Proof.
  assert (not_none (ProfileUpdatePayload.model_dump Sample.bob_update) <> ∅) as Hne.
  { intros E. apply (f_equal (fun m : doc => m !! "phone")) in E.
    vm_compute in E. discriminate E. }
  destruct (update_profile_found_read Sample.two_users "bob@x.com"
              Sample.bob_update Sample.bob Hne eq_refl) as (d' & Hu & _).
  eexists _, d'. split; [exact Hu|].
  apply (update_then_get_profile Sample.two_users d' "bob@x.com"
           Sample.bob_update _ Hu).
Defined.

(** ** What the endpoints never do *)

(** X8. The endpoints for users never touch the events, and [events] never
    touches the users. *)
Theorem endpoints_frame (d d' : database) :
  (forall p, snd (signup (Some d) p) = Some d' -> event d' = event d)
  /\ (forall p, snd (login (Some d) p) = Some d' -> event d' = event d)
  /\ (forall email p, snd (update_profile (Some d) email p) = Some d' ->
        event d' = event d)
  /\ (snd (events (Some d)) = Some d' -> user d' = user d).
Proof.
  split; [|split; [|split]].
  - intros p. unfold signup. repeat case_match; simpl; by intros [= <-].
  - intros p. unfold login. repeat case_match; simpl; by intros [= <-].
  - intros email p. unfold update_profile. repeat case_match; simpl; by intros [= <-].
  - unfold events. repeat case_match; simpl; by intros [= <-].
Qed.

Lemma endpoints_frame_witness :
  exists d',
    snd (signup (Some Sample.two_users) Sample.carol) = Some d'
    /\ event d' = event Sample.two_users.
Proof.
  eexists. split; [reflexivity|].
  apply (proj1 (endpoints_frame Sample.two_users _) Sample.carol).
  reflexivity.
Defined.

Lemma insert_one_appends c (d0 : doc) :
  exists x : doc, docs (insert_one c d0).1 = (docs c ++ [x])%list.
Proof. unfold insert_one. destruct (d0 !! "_id"); simpl; eauto. Qed.

(** X9. No endpoint removes or reorders a record or changes an [_id]: the
    identifiers stored before a call are, in order, the first identifiers
    stored after it. Nothing is assumed of the store. *)
Theorem records_never_removed (d d' : database) :
  (forall p, snd (signup (Some d) p) = Some d' ->
     (fun x : doc => x !! "_id") <$> docs (user d)
     `prefix_of` (fun x : doc => x !! "_id") <$> docs (user d'))
  /\ (forall p, snd (login (Some d) p) = Some d' ->
        (fun x : doc => x !! "_id") <$> docs (user d)
        `prefix_of` (fun x : doc => x !! "_id") <$> docs (user d'))
  /\ (forall email p, snd (update_profile (Some d) email p) = Some d' ->
        (fun x : doc => x !! "_id") <$> docs (user d')
        = (fun x : doc => x !! "_id") <$> docs (user d))
  /\ (snd (events (Some d)) = Some d' ->
        (fun x : doc => x !! "_id") <$> docs (event d)
        `prefix_of` (fun x : doc => x !! "_id") <$> docs (event d')).
Proof.
  split; [|split; [|split]].
  - intros p. unfold signup.
    destruct (truthy _).
    + destruct (_ ≫= _) as [v|]; [|intros [= <-]; reflexivity].
      pose proof (update_one_keeps_field (user d) "_id" v _ "_id"
                    (signup_data_no_id p)) as H.
      destruct (update_one _ _ _ _) as [c n]. simpl in *.
      intros [= <-]. simpl. rewrite H. reflexivity.
    + destruct (insert_one_appends (user d) (not_none (SignupPayload.model_dump p)))
        as [x Hx].
      destruct (insert_one _ _) as [c v]. simpl in *.
      intros [= <-]. simpl. rewrite Hx, fmap_app. by apply prefix_app_r.
  - intros p. unfold login.
    destruct (negb _); [|intros [= <-]; reflexivity].
    match goal with |- context [insert_one ?c ?d0] =>
      destruct (insert_one_appends c d0) as [x Hx];
      destruct (insert_one c d0) as [c' v] end.
    simpl in *. intros [= <-]. simpl. rewrite Hx, fmap_app. by apply prefix_app_r.
  - intros email p. unfold update_profile.
    destruct (decide _); [by intros [= <-]|].
    pose proof (update_one_keeps_field (user d) "email" (VStr email) _ "_id"
                  (profile_updates_no_id p)) as H.
    destruct (update_one _ _ _ _) as [c m]. simpl in *.
    destruct (m =? 0)%Z; by intros [= <-].
  - destruct (docs (event d)) as [|x l] eqn:Hd.
    + rewrite events_seed by done. intros [= <-]. apply prefix_nil.
    + rewrite events_existing by (by rewrite Hd). intros [= <-].
      rewrite Hd. reflexivity.
Qed.

Lemma records_never_removed_witness :
  exists d',
    snd (login (Some Sample.two_users) Sample.new_login) = Some d'
    /\ (fun x : doc => x !! "_id") <$> docs (user Sample.two_users)
       `prefix_of` (fun x : doc => x !! "_id") <$> docs (user d').
Proof.
  eexists. split; [reflexivity|].
  apply (proj1 (proj2 (records_never_removed Sample.two_users _)) Sample.new_login).
  reflexivity.
Defined.

(** ** Emails stay unique *)

Lemma emails_of_fields (l : list doc) :
  omap (fun x : doc => x !! "email") l
  = omap id ((fun x : doc => x !! "email") <$> l).
Proof.
  induction l as [|a l IH]; [done|]. cbn.
  destruct (a !! "email"); cbn; congruence.
Qed.

Lemma emails_replace l1 (e e' : doc) l2 n m :
  e' !! "email" = e !! "email" ->
  emails {| docs := (l1 ++ e' :: l2)%list; next_oid := n |}
  = emails {| docs := (l1 ++ e :: l2)%list; next_oid := m |}.
Proof.
  intros He. unfold emails. simpl. rewrite !omap_app. simpl. by rewrite He.
Qed.

Lemma emails_append c (r : doc) v n :
  r !! "email" = Some v ->
  Forall (fun y : doc => y !! "email" <> Some v) (docs c) ->
  NoDup (emails c) ->
  NoDup (emails {| docs := (docs c ++ [r])%list; next_oid := n |}).
Proof.
  intros Hr Hfresh Hnd. unfold emails in *. simpl. rewrite omap_app. simpl.
  rewrite Hr. apply NoDup_app. split; [done|]. split; [|apply NoDup_singleton].
  intros w Hw Hw'. apply list_elem_of_singleton in Hw' as ->.
  apply list_elem_of_omap in Hw as (x & Hx & Hxe).
  rewrite Forall_forall in Hfresh. by apply (Hfresh x Hx).
Qed.

(** X10. On a well-formed store in which no two records carry the same
    email, no call of [signup], [login] or [update_profile] makes two
    records carry the same email. *)
Theorem emails_stay_unique (d d' : database) :
  wf_db d ->
  NoDup (emails (user d)) ->
  (forall p, snd (signup (Some d) p) = Some d' -> NoDup (emails (user d')))
  /\ (forall p, snd (login (Some d) p) = Some d' -> NoDup (emails (user d')))
  /\ (forall email p, snd (update_profile (Some d) email p) = Some d' ->
        NoDup (emails (user d'))).
Proof.
  intros Hwf Hnd. split; [|split].
  - intros p.
    destruct (find_one (user d) "email" (VStr (SignupPayload.email p))) as [e|] eqn:Hfind.
    + destruct (signup_existing d p e Hwf Hfind) as (l1 & l2 & v & Hd & _ & _ & ->).
      intros [= <-]. cbn [user].
      rewrite (emails_replace l1 e _ l2 _ (next_oid (user d))).
      * unfold emails in *. simpl. by rewrite <- Hd.
      * rewrite (set_fields_present _ _ _ _ (signup_data_email p)).
        by apply find_one_Some in Hfind as (_ & _ & _ & He & _).
    + rewrite (signup_new d p Hwf Hfind). intros [= <-]. cbn [user].
      eapply emails_append; [|by apply find_one_None|done].
      rewrite lookup_insert_ne by done. apply signup_data_email.
  - intros p.
    destruct (find_one (user d) "email" (VStr (LoginPayload.email p))) as [e|] eqn:Hfind.
    + rewrite (login_found d p e Hfind). by intros [= <-].
    + rewrite (login_new d p Hwf Hfind). intros [= <-]. cbn [user].
      eapply emails_append; [|by apply find_one_None|done].
      by rewrite !lookup_insert_ne, lookup_singleton_eq.
  - intros email p.
    destruct (decide (not_none (ProfileUpdatePayload.model_dump p) = ∅)) as [E|Hne].
    { rewrite update_profile_no_fields by done. by intros [= <-]. }
    destruct (find_one (user d) "email" (VStr email)) as [e|] eqn:Hfind.
    + destruct (update_profile_found_read d email p e Hne Hfind)
        as (d1 & -> & _ & _ & Hkeep).
      intros [= <-]. unfold emails in *.
      by rewrite emails_of_fields, (Hkeep "email" (profile_updates_no_email p)),
        <- emails_of_fields.
    + rewrite update_profile_not_found by done. by intros [= <-].
Qed.

Lemma emails_stay_unique_witness :
  wf_db Sample.two_users
  /\ NoDup (emails (user Sample.two_users))
  /\ exists d',
       snd (signup (Some Sample.two_users) Sample.ann_again) = Some d'
       /\ NoDup (emails (user d')).
Proof.
  assert (wf_db Sample.two_users) as Hwf.
  { apply (bool_decide_unpack _). vm_compute. reflexivity. }
  assert (NoDup (emails (user Sample.two_users))) as Hnd.
  { apply (bool_decide_unpack _). vm_compute. reflexivity. }
  split; [exact Hwf|]. split; [exact Hnd|].
  eexists. split; [reflexivity|].
  apply (proj1 (emails_stay_unique Sample.two_users _ Hwf Hnd) Sample.ann_again).
  reflexivity.
Defined.

(** X11. [events] never answers with an empty list and never with more
    than ten events; with a store, the collection of events is not empty
    after the call. *)
Theorem events_never_empty (db : option database) :
  (1 <= length (fst (events db)) <= 10)%nat
  /\ (forall d', snd (events db) = Some d' -> docs (event d') <> []).
Proof.
  destruct db as [d|]; [|split; [simpl; lia|discriminate]].
  destruct (docs (event d)) as [|x l] eqn:Hd.
  - rewrite events_seed by done. split; [simpl; lia|]. by intros d' [= <-].
  - rewrite events_existing by (by rewrite Hd). split.
    + cbn [fst]. rewrite length_map, length_firstn, Hd. cbn [length]. lia.
    + intros d' [= <-]. by rewrite Hd.
Qed.

Lemma events_never_empty_witness :
  exists d',
    snd (events (Some Sample.empty_db)) = Some d' /\ docs (event d') <> [].
Proof.
  eexists. split; [reflexivity|].
  apply (proj2 (events_never_empty (Some Sample.empty_db))).
  reflexivity.
Defined.

(** ** The answers of [directory] *)

Lemma filter_sublist {A : Type} (f : A -> bool) (l : list A) :
  List.filter f l `sublist_of` l.
Proof.
  induction l as [|a l IH]; simpl; [constructor|].
  destruct (f a); by constructor.
Qed.

Lemma limit_sublist n (l : list doc) : limit n l `sublist_of` l.
Proof. unfold limit. destruct (n =? 0)%Z; [done|apply sublist_take]. Qed.

Lemma limit_length n (l : list doc) :
  n <> 0%Z -> (length (limit n l) <= Z.abs_nat n)%nat.
Proof.
  intros Hn. unfold limit. apply Z.eqb_neq in Hn. rewrite Hn.
  rewrite length_firstn. lia.
Qed.

(** X12. Whatever the filters, [directory] answers with the projections of
    stored users, each at most once and in storage order, and with no more
    than [|limit|] of them unless [limit] is zero. *)
Theorem directory_bounded (d : database) (company : option string)
    (batch_year : option Z) (lim : Z) (l : list (option doc)) :
  directory (Some d) company batch_year lim = Some (Ok l) ->
  exists l0 : list doc,
    l0 `sublist_of` docs (user d)
    /\ l = map (fun x => to_public (Some x)) l0
    /\ (lim <> 0%Z -> (length l <= Z.abs_nat lim)%nat)
    /\ (length l <= length (docs (user d)))%nat.
Proof.
  unfold directory.
  destruct (compile (directory_filt company batch_year)) as [q|]; [|discriminate].
  intros [= <-]. exists (limit lim (find (user d) q)).
  assert (limit lim (find (user d) q) `sublist_of` docs (user d)) as Hsub.
  { etrans; [apply limit_sublist|apply filter_sublist]. }
  split; [done|]. split; [done|]. rewrite length_map. split.
  - intros Hn. by apply limit_length.
  - by apply sublist_length.
Qed.

Lemma directory_bounded_witness :
  exists l,
    directory (Some Sample.two_users) (Some ".") None 1 = Some (Ok l)
    /\ (length l <= 1)%nat.
Proof.
  assert (exists l, directory (Some Sample.two_users) (Some ".") None 1
                    = Some (Ok l)) as [l H] by (eexists; reflexivity).
  exists l. split; [exact H|].
  destruct (directory_bounded Sample.two_users (Some ".") None 1 l H)
    as (l0 & _ & _ & Hlen & _).
  apply Hlen. discriminate.
Defined.

Lemma lower_str_empty c : Regex.lower_str c = EmptyString -> c = EmptyString.
Proof. by destruct c. Qed.

Lemma search_lits_same_case c1 c2 b s :
  Regex.lower_str c1 = Regex.lower_str c2 ->
  Regex.search_from true (lits c1) b s = Regex.search_from true (lits c2) b s.
Proof.
  intros Hc. apply eq_true_iff_eq. rewrite !search_from_lits.
  unfold ci_substring. by rewrite Hc.
Qed.

(** X13. The company filter ignores case: two filters without
    metacharacters that differ only in the case of their letters give the
    same answer. *)
Theorem directory_ignores_case (d : database) (c1 c2 : string)
    (batch_year : option Z) (lim : Z) :
  no_metachar c1 = true -> no_metachar c2 = true ->
  Regex.lower_str c1 = Regex.lower_str c2 ->
  directory (Some d) (Some c1) batch_year lim
  = directory (Some d) (Some c2) batch_year lim.
Proof.
  intros H1 H2 Hc. unfold directory, directory_filt.
  destruct (String.eqb c1 EmptyString) eqn:E1.
  - apply String.eqb_eq in E1 as ->. symmetry in Hc.
    apply lower_str_empty in Hc as ->. reflexivity.
  - destruct (String.eqb c2 EmptyString) eqn:E2.
    { apply String.eqb_eq in E2 as ->. apply lower_str_empty in Hc as ->.
      discriminate E1. }
    assert (forall x : doc,
              matcher_holds (MRegex (lits c1) true) (x !! "current_company")
              = matcher_holds (MRegex (lits c2) true) (x !! "current_company"))
      as Hm.
    { intros x. unfold matcher_holds, Regex.search.
      destruct (x !! "current_company") as [[]|]; try done.
      by apply search_lits_same_case. }
    destruct batch_year as [y|]; cbn [app compile compile_cond];
      rewrite (parse_plain c1 H1), (parse_plain c2 H2); cbn [mbind option_bind];
      do 4 f_equal; unfold find; apply filter_ext; intros x;
      unfold doc_matches; cbn [forallb]; by rewrite Hm.
Qed.

Lemma directory_ignores_case_witness :
  directory (Some Sample.two_users) (Some "acme") None 50
  = directory (Some Sample.two_users) (Some "AcMe") None 50.
Proof.
  apply (directory_ignores_case Sample.two_users "acme" "AcMe" None 50);
    reflexivity.
Defined.

(** ** More on the projection *)

Lemma to_public_without_id (d : doc) :
  d <> ∅ -> d !! "_id" = None -> to_public (Some d) = Some d.
Proof.
  intros Hd Hv. unfold to_public. rewrite decide_False by done. by rewrite Hv.
Qed.

(** X14. Projecting twice is projecting once: [to_public] leaves a record
    that it produced as it is. *)
Theorem to_public_idempotent (o : option doc) :
  to_public (to_public o) = to_public o.
Proof.
  destruct o as [d|]; [|reflexivity].
  destruct (decide (d = ∅)) as [->|Hne]; [reflexivity|].
  destruct (d !! "_id") as [v|] eqn:Hv.
  - rewrite (to_public_with_id d v Hv). apply to_public_without_id.
    + apply insert_non_empty.
    + by rewrite lookup_insert_ne, lookup_delete_eq.
  - rewrite (to_public_without_id d Hne Hv). by apply to_public_without_id.
Qed.

(** ** The name that [login] gives *)

Lemma split_head_shape sep s :
  Regex.mem_char sep (hd EmptyString (split sep s)) = false
  /\ (s = hd EmptyString (split sep s)
      \/ exists rest, s = hd EmptyString (split sep s) ++ String sep rest).
Proof.
  induction s as [|c s [IH1 IH2]]; simpl; [by split; [|left]|].
  destruct (Ascii.eqb c sep) eqn:Ec.
  - apply Ascii.eqb_eq in Ec as ->. simpl. split; [done|]. right. by exists s.
  - assert (hd EmptyString
              match split sep s with
              | [] => [String c EmptyString]
              | h :: t => String c h :: t
              end = String c (hd EmptyString (split sep s))) as ->.
    { by destruct (split sep s). }
    simpl. rewrite Ascii.eqb_sym, Ec, IH1. split; [done|].
    destruct IH2 as [IH2|[rest IH2]].
    + left. by rewrite <- IH2.
    + right. exists rest. by rewrite IH2 at 1.
Qed.

(** X15. The name of a user that [login] creates has no [@] in it, and the
    email is that name, alone or followed by [@] and the rest: an email
    that is empty or begins with [@] gives an empty name. *)
Theorem provisioned_name_shape (d : database) (p : LoginPayload.t) :
  wf_db d ->
  find_one (user d) "email" (VStr (LoginPayload.email p)) = None ->
  exists (u : doc) d' name,
    login (Some d) p
    = (Ok {| token := LoginPayload.email p; user_ := Some u |}, Some d')
    /\ u !! "name" = Some (VStr name)
    /\ Regex.mem_char "@" name = false
    /\ (LoginPayload.email p = name
        \/ exists rest, LoginPayload.email p = name ++ String "@" rest).
Proof.
  intros Hwf Hfind. rewrite (login_new d p Hwf Hfind).
  erewrite to_public_with_id by apply lookup_insert_eq.
  eexists _, _, (hd EmptyString (split "@" (LoginPayload.email p))).
  split; [reflexivity|]. split.
  - rewrite lookup_insert_ne, lookup_delete_ne, lookup_insert_ne by done.
    apply lookup_insert_eq.
  - apply split_head_shape.
Qed.

Lemma provisioned_name_shape_witness :
  wf_db Sample.empty_db
  /\ exists (u : doc) d' name,
       login (Some Sample.empty_db) {| LoginPayload.email := "@x.com" |}
       = (Ok {| token := "@x.com"; user_ := Some u |}, Some d')
       /\ u !! "name" = Some (VStr name)
       /\ Regex.mem_char "@" name = false
       /\ ("@x.com" = name \/ exists rest, "@x.com" = name ++ String "@" rest).
Proof.
  assert (wf_db Sample.empty_db) as Hwf.
  { apply (bool_decide_unpack _). vm_compute. reflexivity. }
  split; [exact Hwf|].
  apply (provisioned_name_shape Sample.empty_db
           {| LoginPayload.email := "@x.com" |} Hwf).
  vm_compute. reflexivity.
Defined.

(** ** The diagnostics *)

Lemma substring_0_length n s :
  String.length (substring 0 n s) = Nat.min n (String.length s).
Proof.
  revert s. induction n as [|n IH]; intros [|c s]; simpl; try done.
  by rewrite IH.
Qed.

Lemma substring_0_prefix n s : exists rest, s = substring 0 n s ++ rest.
Proof.
  revert s. induction n as [|n IH]; intros [|c s]; simpl.
  - by exists EmptyString.
  - by exists (String c s).
  - by exists EmptyString.
  - destruct (IH s) as [rest Hrest]. exists rest. by rewrite Hrest at 1.
Qed.

(** X16. [test_database] reports at most ten collection names, the first
    ones that the store lists, and none when there is no store or the
    listing fails; it reports "Connected" exactly when there is a store,
    and "Connected & Working" exactly when the listing succeeded. *)
Theorem test_database_report (db : option Diagnostics.handle)
    (DATABASE_URL : option string) :
  let r := test_database db DATABASE_URL in
  (length (Diagnostics.collections r) <= 10)%nat
  /\ (Diagnostics.connection_status r = "Connected" <-> db <> None)
  /\ (Diagnostics.database r = "✅ Connected & Working"
      <-> exists h cols,
            db = Some h /\ Diagnostics.list_collection_names h = inr cols)
  /\ (forall h cols,
        db = Some h -> Diagnostics.list_collection_names h = inr cols ->
        Diagnostics.collections r `prefix_of` cols
        /\ ((length cols <= 10)%nat -> Diagnostics.collections r = cols))
  /\ (Diagnostics.database r <> "✅ Connected & Working" ->
        Diagnostics.collections r = []).
Proof.
  intros r. unfold r, test_database.
  destruct db as [h|]; [destruct (Diagnostics.list_collection_names h) as [e|cols] eqn:El|];
    cbn [Diagnostics.collections Diagnostics.connection_status Diagnostics.database].
  - split; [simpl; lia|]. split; [done|]. split; [|split; [by intros h' cols [= <-]; congruence|done]].
    split.
    + intros H. vm_compute in H. discriminate H.
    + intros (h' & cols & [= <-] & H). congruence.
  - split; [rewrite length_firstn; lia|]. split; [done|].
    split; [split; [intros _; by exists h, cols|done]|].
    split; [|done]. intros h' cols' [= <-] H. rewrite El in H. injection H as <-.
    split; [apply prefix_take|]. intros Hlen. by apply firstn_all2.
  - split; [simpl; lia|]. split; [split; [discriminate|done]|].
    split; [|split; [discriminate|done]].
    split; [intros H; vm_compute in H; discriminate H|].
    by intros (h' & cols & [= ] & _).
Qed.

Lemma test_database_report_witness :
  let h := {| Diagnostics.name := Some "alumni";
              Diagnostics.list_collection_names := inr ["user"; "event"] |} in
  Diagnostics.collections (test_database (Some h) None) = ["user"; "event"].
Proof.
  intros h.
  destruct (test_database_report (Some h) None) as (_ & _ & _ & Hcols & _).
  apply (Hcols h ["user"; "event"] eq_refl eq_refl). simpl. lia.
Defined.

(** X17. When the listing fails with an exception whose text is printable
    ASCII, the report shows that text cut after its first 80 characters. *)
Theorem test_database_error_text (h : Diagnostics.handle) (e : string)
    (DATABASE_URL : option string) :
  ascii_text e = true ->
  Diagnostics.list_collection_names h = inl e ->
  exists shown rest,
    Diagnostics.database (test_database (Some h) DATABASE_URL)
    = "⚠️ Connected but Error: " ++ shown
    /\ e = shown ++ rest
    /\ String.length shown = Nat.min 80 (String.length e)
    /\ Diagnostics.connection_status (test_database (Some h) DATABASE_URL)
       = "Connected".
Proof.
  intros _ He. destruct (substring_0_prefix 80 e) as [rest Hrest].
  exists (substring 0 80 e), rest. unfold test_database. rewrite He.
  split; [done|]. split; [done|]. split; [apply substring_0_length|done].
Qed.

Lemma test_database_error_text_witness :
  let h := {| Diagnostics.name := None;
              Diagnostics.list_collection_names := inl "timed out" |} in
  ascii_text "timed out" = true
  /\ exists shown rest,
       Diagnostics.database (test_database (Some h) (Some "mongodb://db"))
       = "⚠️ Connected but Error: " ++ shown
       /\ "timed out" = shown ++ rest
       /\ String.length shown = Nat.min 80 (String.length "timed out")
       /\ Diagnostics.connection_status (test_database (Some h) (Some "mongodb://db"))
          = "Connected".
Proof.
  intros h. split; [reflexivity|].
  apply (test_database_error_text h "timed out"); reflexivity.
Defined.

(** ** More compositions *)

(** X18. A profile update that succeeded is idempotent: the same call again
    returns the same user and leaves the store as the first call left it. *)
Theorem update_profile_idempotent (d d' : database) (email : string)
    (p : ProfileUpdatePayload.t) (o : option doc) :
  update_profile (Some d) email p = (Ok o, Some d') ->
  update_profile (Some d') email p = (Ok o, Some d').
Proof.
  intros H.
  destruct (decide (not_none (ProfileUpdatePayload.model_dump p) = ∅)) as [E|Hne].
  { by rewrite update_profile_no_fields in H. }
  destruct (find_one (user d) "email" (VStr email)) as [e|] eqn:Hfind.
  - destruct (update_profile_found_read d email p e Hne Hfind)
      as (d1 & Hu & Hread & _).
    rewrite Hu in H. injection H as <- <-.
    destruct (update_profile_found d1 email p _ Hne Hread) as (l1 & l2 & Hd & Hu').
    rewrite Hu'. rewrite set_fields_contained by apply set_fields_present.
    rewrite <- Hd. f_equal. f_equal. destruct d1 as [[] ?]. reflexivity.
  - by rewrite update_profile_not_found in H.
Qed.

Lemma update_profile_idempotent_witness :
  exists o d',
    update_profile (Some Sample.two_users) "bob@x.com" Sample.bob_update
    = (Ok o, Some d')
    /\ update_profile (Some d') "bob@x.com" Sample.bob_update = (Ok o, Some d').
Proof.
  assert (not_none (ProfileUpdatePayload.model_dump Sample.bob_update) <> ∅) as Hne.
  { intros E. apply (f_equal (fun m : doc => m !! "phone")) in E.
    vm_compute in E. discriminate E. }
  destruct (update_profile_found_read Sample.two_users "bob@x.com"
              Sample.bob_update Sample.bob Hne eq_refl) as (d' & Hu & _).
  eexists _, d'. split; [exact Hu|].
  apply (update_profile_idempotent Sample.two_users d' "bob@x.com"
           Sample.bob_update _ Hu).
Defined.

(** X19. What [login] returns is what [get_profile] then reads under the
    same email, also when the login created the record. *)
Theorem login_then_get_profile (d : database) (p : LoginPayload.t) :
  wf_db d ->
  exists o d',
    login (Some d) p = (Ok {| token := LoginPayload.email p; user_ := o |}, Some d')
    /\ get_profile (Some d') (LoginPayload.email p) = (Ok o, Some d').
Proof.
  intros Hwf.
  destruct (login_result d p Hwf) as (e1 & d1 & v & Hs & Hfind & _).
  eexists _, d1. split; [exact Hs|]. by apply get_profile_found.
Qed.

Lemma login_then_get_profile_witness :
  wf_db Sample.empty_db
  /\ exists o d',
       login (Some Sample.empty_db) Sample.new_login
       = (Ok {| token := "new@x.com"; user_ := o |}, Some d')
       /\ get_profile (Some d') "new@x.com" = (Ok o, Some d').
Proof.
  assert (wf_db Sample.empty_db) as Hwf.
  { apply (bool_decide_unpack _). vm_compute. reflexivity. }
  split; [exact Hwf|].
  apply (login_then_get_profile Sample.empty_db Sample.new_login Hwf).
Defined.
